(** * Zebec partners card SDK: purchase orchestration, recipient validation
      and chain selection, embedded from the TypeScript sources.

    Sources embedded here:
    - [src/utils.ts]     string predicates, [areDatesOfSameDay]
    - [src/types.ts]     [Recipient.create], [Money], [Deposit], [Receipt],
                         [OrderCardRequest]
    - [src/chains.ts]    [SupportedEvmChain], [parseSupportedChain],
                         [TESTNET_CHAINIDS]
    - [src/errors.ts]    the error classes
    - [src/services.ts]  [ZebecCardEvmService] constructor and
                         [purchaseCardWithUsdc]

    Modelling conventions.
    - A JavaScript string is a [string]; one [ascii] stands for one UTF-16
      code unit, so [String.length] is the [.length] of the source.
    - A [bigint] and an integral [number] (chain ids, millisecond time
      stamps, delays) is a [Z]; a fractional [number] (prices) is a [Q].
    - [throw] is the left injection of a sum; an [await]ed call to a
      collaborator outside this package (backend, chain node, timer)
      appends an event to a trace and reads its outcome from a [World].
    - [console.debug] diagnostics (guarded by [this.sandbox]) never change
      control flow and are left out. *)

From Stdlib Require Import ZArith List String Ascii Bool Lia QArith DecimalString.
Import ListNotations.
Open Scope string_scope.
Open Scope Z_scope.

(* ===================================================================== *)
(** ** Regular expressions, as far as the two patterns of utils.ts need   *)
(* ===================================================================== *)

Module Regex.

Inductive re : Type :=
| Void
| Eps
| Cls (p : ascii -> bool)
| Cat (r s : re)
| Alt (r s : re)
| Star (r : re).

Fixpoint nullable (r : re) : bool :=
  match r with
  | Void => false
  | Eps => true
  | Cls _ => false
  | Cat r s => nullable r && nullable s
  | Alt r s => nullable r || nullable s
  | Star _ => true
  end.

(** Constructors that drop [Void] and [Eps] early keep derivatives small. *)
Definition cat (r s : re) : re :=
  match r, s with
  | Void, _ => Void
  | _, Void => Void
  | Eps, _ => s
  | _, Eps => r
  | _, _ => Cat r s
  end.

Definition alt (r s : re) : re :=
  match r, s with
  | Void, _ => s
  | _, Void => r
  | _, _ => Alt r s
  end.

(** Brzozowski derivative. *)
Fixpoint deriv (c : ascii) (r : re) : re :=
  match r with
  | Void => Void
  | Eps => Void
  | Cls p => if p c then Eps else Void
  | Cat r s =>
      if nullable r
      then alt (cat (deriv c r) s) (deriv c s)
      else cat (deriv c r) s
  | Alt r s => alt (deriv c r) (deriv c s)
  | Star r => cat (deriv c r) (Star r)
  end.

(** [/^r$/.test(s)]: the whole of [s] is matched by [r]. *)
Fixpoint test (r : re) (s : string) : bool :=
  match s with
  | EmptyString => nullable r
  | String c s' => test (deriv c r) s'
  end.

(** [r+] *)
Definition plus (r : re) : re := Cat r (Star r).

(** [r{n}] *)
Fixpoint exactly (n : nat) (r : re) : re :=
  match n with
  | O => Eps
  | S k => Cat r (exactly k r)
  end.

(** [r{0,n}] *)
Fixpoint upto (n : nat) (r : re) : re :=
  match n with
  | O => Eps
  | S k => Alt Eps (Cat r (upto k r))
  end.

(** [r{lo,hi}] *)
Definition between (lo hi : nat) (r : re) : re :=
  Cat (exactly lo r) (upto (hi - lo) r).

(** Character ranges and single characters of a class. *)
Definition range (lo hi c : ascii) : bool :=
  (N_of_ascii lo <=? N_of_ascii c)%N && (N_of_ascii c <=? N_of_ascii hi)%N.

Definition chr (x c : ascii) : bool := Ascii.eqb x c.

End Regex.

(* ===================================================================== *)
(** ** utils.ts                                                           *)
(* ===================================================================== *)

Import Regex.

(** [[a-zA-Z0-9._+-]] *)
Definition cls_local (c : ascii) : bool :=
  range "a" "z" c || range "A" "Z" c || range "0" "9" c
  || chr "." c || chr "_" c || chr "+" c || chr "-" c.

(** [[a-zA-Z0-9.-]] *)
Definition cls_domain (c : ascii) : bool :=
  range "a" "z" c || range "A" "Z" c || range "0" "9" c
  || chr "." c || chr "-" c.

(** [[a-zA-Z]] *)
Definition cls_alpha (c : ascii) : bool :=
  range "a" "z" c || range "A" "Z" c.

(** [[a-zA-Z0-9]] *)
Definition cls_alnum (c : ascii) : bool :=
  range "a" "z" c || range "A" "Z" c || range "0" "9" c.

(** [/^[a-zA-Z0-9._+-]+@[a-zA-Z0-9.-]+\.[a-zA-Z]{2,10}$/] *)
Definition email_re : re :=
  Cat (plus (Cls cls_local))
   (Cat (Cls (chr "@"))
    (Cat (plus (Cls cls_domain))
     (Cat (Cls (chr "."))
          (between 2 10 (Cls cls_alpha))))).

Definition isEmailValid (value : string) : bool := test email_re value.

(** [/^[a-zA-Z0-9]+$/] *)
Definition isAlphaNumeric (value : string) : bool :=
  test (plus (Cls cls_alnum)) value.

Definition strlen (s : string) : Z := Z.of_nat (String.length s).

Definition hasMinLen (value : string) (len : Z) : bool := len <=? strlen value.

Definition hasMaxLen (value : string) (len : Z) : bool := strlen value <=? len.

(** [hasLen(value, min, max?)]: [if (max)] is false for an absent and for
    a zero [max]. *)
Definition hasLen (value : string) (min : Z) (max : option Z) : bool :=
  match max with
  | Some m =>
      if m =? 0 then hasMinLen value min
      else hasMinLen value min && hasMaxLen value m
  | None => hasMinLen value min
  end.

(* ===================================================================== *)
(** ** errors.ts                                                          *)
(* ===================================================================== *)

(** What a collaborator outside this package throws (an [AxiosError], a
    provider error); this package never inspects it. *)
Definition RemoteError : Type := string.

(** The values this package throws.  [PlainError msg] is [new Error(msg)];
    [Remote e] is an error of a collaborator that propagates unchanged. *)
Inductive Error : Type :=
| PlainError (msg : string)
| InvalidEmailError (email : string)
| NotEnoughBalanceError (currentBalance requiredBalance : string)
| CardPurchaseAmountOutOfRangeError (minRange maxRange : string)
| DailyCardPurchaseLimitExceedError (dailyLimit purchaseOfADay : string)
| ValidationError (msg : string)
| Remote (e : RemoteError).

(** A computation that either throws or returns. *)
Definition Result (A : Type) : Type := (Error + A)%type.

(* ===================================================================== *)
(** ** types.ts: the country table and [Recipient]                        *)
(* ===================================================================== *)

(** The [code] column of [ALL_COUNTRIES_AND_CODE], in source order; the
    [name] column is never read. *)
Definition ALL_COUNTRIES_AND_CODE : list string :=
  ["ABW"; "AFG"; "AGO"; "AIA"; "ALA"; "ALB"; "AND"; "ARE"; "ARG"; "ARM"; 
   "ASM"; "ATA"; "ATF"; "ATG"; "AUS"; "AUT"; "AZE"; "BDI"; "BEL"; "BEN"; 
   "BES"; "BFA"; "BGD"; "BGR"; "BHR"; "BHS"; "BIH"; "BLM"; "BLR"; "BLZ"; 
   "BMU"; "BOL"; "BRA"; "BRB"; "BRN"; "BTN"; "BVT"; "BWA"; "CAF"; "CAN"; 
   "CCK"; "CHE"; "CHL"; "CHN"; "CIV"; "CMR"; "COD"; "COG"; "COK"; "COL"; 
   "COM"; "CPV"; "CRI"; "CUB"; "CUW"; "CXR"; "CYM"; "CYP"; "CZE"; "DEU"; 
   "DJI"; "DMA"; "DNK"; "DOM"; "DZA"; "ECU"; "EGY"; "ERI"; "ESH"; "ESP"; 
   "EST"; "ETH"; "FIN"; "FJI"; "FLK"; "FRA"; "FRO"; "FSM"; "GAB"; "GBR"; 
   "GEO"; "GGY"; "GHA"; "GIB"; "GIN"; "GLP"; "GMB"; "GNB"; "GNQ"; "GRC"; 
   "GRD"; "GRL"; "GTM"; "GUF"; "GUM"; "GUY"; "HKG"; "HMD"; "HND"; "HRV"; 
   "HTI"; "HUN"; "IDN"; "IMN"; "IND"; "IOT"; "IRL"; "IRN"; "IRQ"; "ISL"; 
   "ISR"; "ITA"; "JAM"; "JEY"; "JOR"; "JPN"; "KAZ"; "KEN"; "KGZ"; "KHM"; 
   "KIR"; "KNA"; "KOR"; "KWT"; "LAO"; "LBN"; "LBR"; "LBY"; "LCA"; "LIE"; 
   "LKA"; "LSO"; "LTU"; "LUX"; "LVA"; "MAC"; "MAF"; "MAR"; "MCO"; "MDA"; 
   "MDG"; "MDV"; "MEX"; "MHL"; "MKD"; "MLI"; "MLT"; "MMR"; "MNE"; "MNG"; 
   "MNP"; "MOZ"; "MRT"; "MSR"; "MTQ"; "MUS"; "MWI"; "MYS"; "MYT"; "NAM"; 
   "NCL"; "NER"; "NFK"; "NGA"; "NIC"; "NIU"; "NLD"; "NOR"; "NPL"; "NRU"; 
   "NZL"; "OMN"; "PAK"; "PAN"; "PCN"; "PER"; "PHL"; "PLW"; "PNG"; "POL"; 
   "PRI"; "PRK"; "PRT"; "PRY"; "PSE"; "PYF"; "QAT"; "REU"; "ROU"; "RUS"; 
   "RWA"; "SAU"; "SDN"; "SEN"; "SGP"; "SGS"; "SHN"; "SJM"; "SLB"; "SLE"; 
   "SLV"; "SMR"; "SOM"; "SPM"; "SRB"; "SSD"; "STP"; "SUR"; "SVK"; "SVN"; 
   "SWE"; "SWZ"; "SXM"; "SYC"; "SYR"; "TCA"; "TCD"; "TGO"; "THA"; "TJK"; 
   "TKL"; "TKM"; "TLS"; "TON"; "TTO"; "TUN"; "TUR"; "TUV"; "TWN"; "TZA"; 
   "UGA"; "UKR"; "UMI"; "URY"; "USA"; "UZB"; "VAT"; "VCT"; "VEN"; "VGB"; 
   "VIR"; "VNM"; "VUT"; "WLF"; "WSM"; "YEM"; "ZAF"; "ZMB"; "ZWE"].

(** [!!ALL_COUNTRIES_AND_CODE.find((country) => country.code === c)] *)
Definition isSupportedCountry (c : string) : bool :=
  existsb (fun code => String.eqb code c) ALL_COUNTRIES_AND_CODE.

Module Recipient.

Record t : Type := mk {
  participantId : string;
  firstName : string;
  lastName : string;
  emailAddress : string;
  address1 : string;
  address2 : string;
  city : string;
  state : string;
  postalCode : string;
  countryCode : string;
  language : string;
  mobilePhone : string
}.

(** The private constructor, with the parameter order of the source. *)
Definition new (participantId firstName lastName emailAddress mobilePhone
                language city state postalCode countryCode address1
                address2 : string) : t :=
  {| participantId := participantId;
     firstName := firstName;
     lastName := lastName;
     emailAddress := emailAddress;
     address1 := address1;
     address2 := address2;
     city := city;
     state := state;
     postalCode := postalCode;
     countryCode := countryCode;
     language := language;
     mobilePhone := mobilePhone |}.

(** A string is truthy when it is not empty. *)
Definition truthy (s : string) : bool := negb (String.eqb s "").

(** [static create(...)]; the optional [address2] is [None] when the
    caller leaves it out. *)
Definition create (participantId firstName lastName emailAddress mobilePhone
                   language city state postalCode countryCode address1 : string)
                  (address2 : option string) : Result t :=
  if negb (hasLen participantId 1 (Some 20)) then
    inl (ValidationError "Participants must be of 1 to 20 characters.")
  else if negb (isAlphaNumeric participantId) then
    inl (ValidationError "Participants must only contains alpha numeric characters")
  else if negb (hasLen firstName 1 (Some 50)) then
    inl (ValidationError "Firstname must be within 1 to 50 characters.")
  else if negb (hasLen lastName 1 (Some 50)) then
    inl (ValidationError "Lastname must be within 1 to 50 characters.")
  else if negb (hasLen emailAddress 1 (Some 80)) then
    inl (ValidationError "Email must be within 1 to 80 characters.")
  else if negb (isEmailValid emailAddress) then
    inl (ValidationError "Email address must be a valid email.")
  else if negb (truthy language) then
    inl (ValidationError "Language code is required")
  else if negb (hasLen mobilePhone 1 (Some 20)) then
    inl (ValidationError "Mobile phone number must be within 1 to 20 characters.")
  else if negb (hasLen city 1 (Some 35)) then
    inl (ValidationError "City must be within 1 to 50 characters.")
  else if negb (hasLen state 1 (Some 50)) then
    inl (ValidationError "State must be within 1 to 50 characters.")
  else if negb (isSupportedCountry countryCode) then
    inl (ValidationError "CountryCode must be a valid supported ISO 3166-1 alpha-3 code")
  else if negb (hasLen postalCode 1 (Some 20)) then
    inl (ValidationError "Postal code must be within 1 to 20 characters.")
  else if negb (hasLen address1 1 (Some 50)) then
    inl (ValidationError "Address line 1 must be within 1 to 50 characters.")
  else if match address2 with
          | Some a2 => truthy a2 && negb (hasLen a2 1 (Some 50))
          | None => false
          end then
    inl (ValidationError "Address line 2 must be within 1 to 50 characters.")
  else
    inr (new participantId firstName lastName emailAddress mobilePhone
             language city state postalCode countryCode address1
             (match address2 with Some a2 => a2 | None => "N/A" end)).

End Recipient.

(* ===================================================================== *)
(** ** chains.ts                                                          *)
(* ===================================================================== *)

Inductive SupportedEvmChain : Type :=
| Mainnet | Sepolia | Base | Bsc | BscTestnet | Polygon | PolygonAmoy.

(** The numeric value of each enum member. *)
Definition chainValue (c : SupportedEvmChain) : Z :=
  match c with
  | Mainnet => 1
  | Sepolia => 11155111
  | Base => 8453
  | Bsc => 56
  | BscTestnet => 97
  | Polygon => 137
  | PolygonAmoy => 80002
  end.

(** Decimal rendering of an integer inside a template literal. *)
Definition showZ (z : Z) : string := NilEmpty.string_of_int (Z.to_int z).

Definition parseSupportedChain (chainId : Z) : Result SupportedEvmChain :=
  if chainId =? 1 then inr Mainnet
  else if chainId =? 11155111 then inr Sepolia
  else if chainId =? 8453 then inr Base
  else if chainId =? 56 then inr Bsc
  else if chainId =? 97 then inr BscTestnet
  else if chainId =? 137 then inr Polygon
  else if chainId =? 80002 then inr PolygonAmoy
  else inl (PlainError ("Chain Id: " ++ showZ chainId ++ " not supported.")).

Definition TESTNET_CHAINIDS : list Z :=
  [chainValue BscTestnet; chainValue PolygonAmoy; chainValue Sepolia].

(** [Array.prototype.includes] on numbers. *)
Definition includes (l : list Z) (x : Z) : bool := existsb (Z.eqb x) l.

(* ===================================================================== *)
(** ** Dates: the time value of a [Date] and its UTC getters              *)
(* ===================================================================== *)

(** The getters used by [areDatesOfSameDay], after the ECMAScript
    definitions of [Day], [WeekDay], [YearFromTime], [MonthFromTime] and
    [DateFromTime].  A [Date] holds a millisecond time value or NaN
    ([None], an invalid date); a getter of an invalid date is NaN. *)
Module JsDate.

Definition msPerDay : Z := 86400000.

Definition Date : Type := option Z.

(** [new Date(v)] for an integral [v]: TimeClip. *)
Definition ofTime (v : Z) : Date :=
  if Z.abs v <=? 8640000000000000 then Some v else None.

Definition Day (t : Z) : Z := t / msPerDay.

Definition WeekDay (t : Z) : Z := (Day t + 4) mod 7.

Definition DayFromYear (y : Z) : Z :=
  365 * (y - 1970) + (y - 1969) / 4 - (y - 1901) / 100 + (y - 1601) / 400.

Definition isLeap (y : Z) : bool :=
  if negb (y mod 4 =? 0) then false
  else if negb (y mod 100 =? 0) then true
  else if negb (y mod 400 =? 0) then false
  else true.

(** A year that starts no later than day [d]. *)
Definition yearBelow (d : Z) : Z :=
  if 0 <=? d then 1970 + d / 366 else 1970 + d / 365.

(** Walk up from [y] while the next year still starts on or before [d]. *)
Fixpoint yearUp (fuel : nat) (y d : Z) : Z :=
  match fuel with
  | O => y
  | S f => if DayFromYear (y + 1) <=? d then yearUp f (y + 1) d else y
  end.

(** The largest [y] with [DayFromYear y <= Day t]. *)
Definition YearFromTime (t : Z) : Z :=
  let d := Day t in
  yearUp (Z.to_nat (Z.abs d / 100000 + 2)) (yearBelow d) d.

Definition DayWithinYear (t : Z) : Z := Day t - DayFromYear (YearFromTime t).

Definition InLeapYear (t : Z) : Z := if isLeap (YearFromTime t) then 1 else 0.

Definition MonthFromTime (t : Z) : Z :=
  let d := DayWithinYear t in
  let l := InLeapYear t in
  if d <? 31 then 0
  else if d <? 59 + l then 1
  else if d <? 90 + l then 2
  else if d <? 120 + l then 3
  else if d <? 151 + l then 4
  else if d <? 181 + l then 5
  else if d <? 212 + l then 6
  else if d <? 243 + l then 7
  else if d <? 273 + l then 8
  else if d <? 304 + l then 9
  else if d <? 334 + l then 10
  else 11.

Definition DateFromTime (t : Z) : Z :=
  let d := DayWithinYear t in
  let l := InLeapYear t in
  match MonthFromTime t with
  | 0 => d + 1
  | 1 => d - 30
  | 2 => d - 58 - l
  | 3 => d - 89 - l
  | 4 => d - 119 - l
  | 5 => d - 150 - l
  | 6 => d - 180 - l
  | 7 => d - 211 - l
  | 8 => d - 242 - l
  | 9 => d - 272 - l
  | 10 => d - 303 - l
  | _ => d - 333 - l
  end.

Definition getUTCDay (d : Date) : option Z := option_map WeekDay d.
Definition getUTCDate (d : Date) : option Z := option_map DateFromTime d.
Definition getUTCMonth (d : Date) : option Z := option_map MonthFromTime d.
Definition getUTCFullYear (d : Date) : option Z := option_map YearFromTime d.

(** [===] on two getter results: NaN is not equal to itself. *)
Definition strictEq (a b : option Z) : bool :=
  match a, b with
  | Some x, Some y => x =? y
  | _, _ => false
  end.

End JsDate.

(** utils.ts, [areDatesOfSameDay]. *)
Definition areDatesOfSameDay (date1 date2 : JsDate.Date) : bool :=
  JsDate.strictEq (JsDate.getUTCDay date1) (JsDate.getUTCDay date2)
  && JsDate.strictEq (JsDate.getUTCMonth date1) (JsDate.getUTCMonth date2)
  && JsDate.strictEq (JsDate.getUTCFullYear date1) (JsDate.getUTCFullYear date2).

(* ===================================================================== *)
(** ** JavaScript numbers and the runtime this package calls into         *)
(* ===================================================================== *)

(** A fractional [number]: NaN, an infinity, or a rational. *)
Inductive number : Type :=
| NaN
| Infinity (negative : bool)
| Finite (q : Q).

(** [a === b] on numbers. *)
Definition number_strictEq (a b : number) : bool :=
  match a, b with
  | Finite p, Finite q => Qeq_bool p q
  | Infinity s, Infinity t => Bool.eqb s t
  | _, _ => false
  end.

(** [amount: string | number] *)
Inductive Amount : Type :=
| AmountString (s : string)
| AmountNumber (n : number).

(** Built-ins of the language, of node's [crypto] and of [ethers] that the
    sources call; they are outside this package and stay parameters. *)
Record JsRuntime : Type := {
  Number_of_string : string -> number;        (* Number(s) *)
  number_toFixed : number -> Z -> string;     (* n.toFixed(d) *)
  number_toString : number -> string;         (* n.toString() *)
  string_toLowerCase : string -> string;      (* s.toLowerCase() *)
  sha256_hex : string -> string;              (* createHash("sha256") ... digest("hex") *)
  ethers_parseUnits : string -> Z -> RemoteError + Z;   (* throws on a malformed value *)
  ethers_formatUnits : Z -> Z -> string
}.

(** constants.ts is not part of the sources at hand; its tables are
    parameters. *)
Record Constants : Type := {
  CARD_API_URL_Production : string;
  CARD_API_URL_Sandbox : string;
  DEFAULT_GAS_LIMIT : Z;
  USDC_ADDRESS : SupportedEvmChain -> string;
  ZEBEC_CARD_ADDRESS : SupportedEvmChain -> string
}.

(* ===================================================================== *)
(** ** types.ts: quotes, programs and the order payload                   *)
(* ===================================================================== *)

Inductive QuoteType : Type := EXACT_IN | EXACT_OUT.

Module Quote.
Record t : Type := mk {
  id : string;
  quoteType : QuoteType;
  inputToken : string;
  outputToken : string;
  inputAmount : number;
  outputAmount : number;
  exchangeRate : number;
  platformFee : number;
  expiresIn : Z;
  timestamp : JsDate.Date;
  token : string;
  targetCurrency : string;
  amountRequested : number;
  pricePerUnitCurrency : number;
  totalPrice : number
}.
End Quote.

Inductive CardType : Type := silver | carbon.

Module CardProgram.
Record t : Type := mk {
  id : string;
  type : CardType;
  name : string;
  description : string;
  isRegional : bool;
  isInternational : bool;
  availableCurrencies : list string;
  region : string
}.
End CardProgram.

Module UserRegion.
Record t : Type := mk {
  name : string;
  value : string;
  currencies : list string;
  countries : list string
}.
End UserRegion.

Module CardProgramWithUserRegion.
Record t : Type := mk {
  userRegion : UserRegion.t;
  availablePrograms : list CardProgram.t;
  currencies : list (string * number)
}.
End CardProgramWithUserRegion.

(** The backend's order record is only received and handed on. *)
Definition OrderWithExtraInfo : Type := string.

Module Money.
Record t : Type := mk { amount : number; currencyCode : string }.
(** [Money.create] applied to a [number]: [Number(amount)] is [amount]. *)
Definition create (amount : number) (currencyCode : string) : t :=
  mk amount currencyCode.
End Money.

Module Deposit.
Record t : Type := mk {
  chainId : Z;
  tokenName : string;
  tokenAmount : number;
  signature : string;
  txHash : string;
  blockHash : string;
  buyerAddress : string;
  userEmail : string;
  paymentId : string
}.
End Deposit.

Module Receipt.
Record t : Type := mk { quote : Quote.t; deposit : Deposit.t }.
End Receipt.

Module OrderCardRequest.
Record t : Type := mk {
  amount : Money.t;
  programId : string;
  recipient : Recipient.t;
  receipt : Receipt.t
}.
(** [constructor(amount, programId, recipient, receipt)] *)
Definition new (amount : Money.t) (programId : string)
           (recipient : Recipient.t) (receipt : Receipt.t) : t :=
  mk amount programId recipient receipt.
End OrderCardRequest.

(* ===================================================================== *)
(** ** The chain side: what the contract bindings return                  *)
(* ===================================================================== *)

Definition Signer : Type := string.

Module Contract.
Record t : Type := mk { target : string; runner : Signer }.
(** [X__factory.connect(address, signer)] *)
Definition connect (address : string) (signer : Signer) : t := mk address signer.
End Contract.

Module CardConfig.
Record t : Type := mk {
  minCardAmount : Z;
  maxCardAmount : Z;
  dailyCardBuyLimit : Z
}.
End CardConfig.

Module CardPurchaseInfo.
Record t : Type := mk {
  unixInRecord : Z;
  totalCardBoughtPerDay : Z
}.
End CardPurchaseInfo.

Module TransactionResponse.
Record t : Type := mk { hash : string }.
End TransactionResponse.

Module TransactionReceipt.
Record t : Type := mk { hash : string; blockHash : string }.
End TransactionReceipt.

Module Overrides.
Record t : Type := mk { gasLimit : option Z; rest : string }.
End Overrides.

(* ===================================================================== *)
(** ** Effects: events, the world that answers them, and the monad        *)
(* ===================================================================== *)

(** One event per awaited call that leaves the process. *)
Inductive Event : Type :=
| Ping
| FetchZebecCardPrograms (countryCode : string)
| Decimals (token : Contract.t)
| BalanceOf (token : Contract.t) (owner : Signer)
| ReadCardConfig (card : Contract.t)
| ReadCardPurchases (card : Contract.t) (owner : Signer)
| Allowance (token : Contract.t) (owner : Signer) (spender : Contract.t)
| Approve (token : Contract.t) (spender : Contract.t) (amount : Z)
| ApproveWait
| BuyCardDirect (card : Contract.t) (amount : Z) (cardType emailHash : string)
                (overrides : Overrides.t)
| BuyWait
| GetAddress (signer : Signer)
| PurchaseCard (data : OrderCardRequest.t)
| Sleep (ms : Z).

(** What the collaborators answer during one purchase attempt.  A left
    value is a rejected promise.  [w_purchaseCard n] answers the [n]-th
    order submission, counted from 0. *)
Record World : Type := {
  w_ping : RemoteError + unit;
  w_programs : RemoteError + CardProgramWithUserRegion.t;
  w_now : Z;                                   (* Date.now() at the expiry check *)
  w_decimals : RemoteError + Z;
  w_balanceOf : RemoteError + Z;
  w_cardConfig : RemoteError + CardConfig.t;
  w_cardPurchases : RemoteError + CardPurchaseInfo.t;
  w_today : Z;                                 (* new Date() at the daily-limit check *)
  w_allowance : RemoteError + Z;
  w_approve : RemoteError + TransactionResponse.t;
  w_approveWait : RemoteError + option TransactionReceipt.t;
  w_buyCardDirect : RemoteError + TransactionResponse.t;
  w_buyWait : RemoteError + option TransactionReceipt.t;
  w_getAddress : RemoteError + string;
  w_purchaseCard : nat -> RemoteError + OrderWithExtraInfo
}.

(** How an async function ends.  [Unfinished] is a loop cut short by the
    model's fuel; [purchase_total] shows it never happens. *)
Inductive Outcome (A : Type) : Type :=
| Throws (e : Error)
| Returns (a : A)
| Unfinished.

Arguments Throws {A} e.
Arguments Returns {A} a.
Arguments Unfinished {A}.

Definition M (A : Type) : Type := (list Event * Outcome A)%type.

Definition ret {A} (a : A) : M A := ([], Returns a).

Definition throw {A} (e : Error) : M A := ([], Throws e).

Definition bind {A B} (m : M A) (k : A -> M B) : M B :=
  match m with
  | (t1, Returns a) => let (t2, o) := k a in ((t1 ++ t2)%list, o)
  | (t1, Throws e) => (t1, Throws e)
  | (t1, Unfinished) => (t1, Unfinished)
  end.

Notation "x <- c1 ;; c2" := (bind c1 (fun x => c2))
  (at level 61, c1 at next level, right associativity).

(** [await] of a call to a collaborator. *)
Definition call {A} (ev : Event) (answer : RemoteError + A) : M A :=
  ([ev], match answer with inl e => Throws (Remote e) | inr a => Returns a end).

(** [try { m } catch (error) { ... }]: hand the caught error to the code
    that follows. *)
Definition try_ {A} (m : M A) : M (Result A) :=
  match m with
  | (t, Returns a) => (t, Returns (inr a))
  | (t, Throws e) => (t, Returns (inl e))
  | (t, Unfinished) => (t, Unfinished)
  end.

Definition trace {A} (m : M A) : list Event := fst m.
Definition outcome {A} (m : M A) : Outcome A := snd m.

(* ===================================================================== *)
(** ** services.ts: [ZebecCardAPIService]                                 *)
(* ===================================================================== *)

Module APIConfig.
Record t : Type := mk { apiKey : string; encryptionKey : string }.
End APIConfig.

Module ZebecCardAPIService.

Record t : Type := mk {
  apiKey : string;
  encryptionKey : string;
  apiUrl : string;
  sandbox : bool
}.

Definition constructor (consts : Constants) (apiConfig : APIConfig.t)
           (sandbox : option bool) : t :=
  let on := match sandbox with Some true => true | _ => false end in
  {| apiKey := APIConfig.apiKey apiConfig;
     encryptionKey := APIConfig.encryptionKey apiConfig;
     apiUrl := if on then CARD_API_URL_Sandbox consts
               else CARD_API_URL_Production consts;
     sandbox := on |}.

Section Methods.
Variable w : World.

(** Any failure of [GET /ping] becomes one fixed error. *)
Definition ping (this : t) : M bool :=
  r <- try_ (call Ping (w_ping w)) ;;
  match r with
  | inr _ => ret true
  | inl _ => throw (PlainError "Card service is down. Please try again later.")
  end.

(** The [catch] only logs and rethrows. *)
Definition fetchZebecCardPrograms (this : t) (countryCode : string)
  : M CardProgramWithUserRegion.t :=
  call (FetchZebecCardPrograms countryCode) (w_programs w).

(** [POST /orders/create]; [answer] is what the backend replies to this
    very submission, its [data] on success. *)
Definition purchaseCard (this : t) (data : OrderCardRequest.t)
           (answer : RemoteError + OrderWithExtraInfo) : M OrderWithExtraInfo :=
  call (PurchaseCard data) answer.
End Methods.

End ZebecCardAPIService.

(* ===================================================================== *)
(** ** services.ts: [ZebecCardEvmService]                                 *)
(* ===================================================================== *)

Module SdkOptions.
Record t : Type := mk { sandbox : option bool }.
End SdkOptions.

Module PurchaseParams.
Record t : Type := mk {
  amount : Amount;
  quote : Quote.t;
  cardProgramId : string;
  recipient : Recipient.t;
  overrides : option Overrides.t
}.
End PurchaseParams.

Module PurchaseResult.
Record t : Type := mk {
  receipt : TransactionReceipt.t;
  orderDetail : OrderWithExtraInfo
}.
End PurchaseResult.

Module ZebecCardEvmService.

Record t : Type := mk {
  signer : Signer;
  zebecCard : Contract.t;
  usdcToken : Contract.t;
  chainId : SupportedEvmChain;
  apiService : ZebecCardAPIService.t;
  sandbox : bool
}.

Definition constructor (consts : Constants) (signer : Signer) (chainId : Z)
           (apiConfig : APIConfig.t) (sdkOptions : option SdkOptions.t)
  : Result t :=
  let sandbox :=
    match sdkOptions with
    | Some o => match SdkOptions.sandbox o with Some true => true | _ => false end
    | None => false
    end in
  let isTesnetChainId := includes TESTNET_CHAINIDS chainId in
  if (sandbox && negb isTesnetChainId) || (negb sandbox && isTesnetChainId) then
    inl (PlainError "Only testnet chains are allowed in sandbox environment")
  else
    let apiService := ZebecCardAPIService.constructor consts apiConfig (Some sandbox) in
    match parseSupportedChain chainId with
    | inl e => inl e
    | inr chain =>
        let zebecCardAddress := ZEBEC_CARD_ADDRESS consts chain in
        let usdcAddress := USDC_ADDRESS consts chain in
        inr {| signer := signer;
               zebecCard := Contract.connect zebecCardAddress signer;
               usdcToken := Contract.connect usdcAddress signer;
               chainId := chain;
               apiService := apiService;
               sandbox := sandbox |}
    end.

Section Purchase.
Variable js : JsRuntime.
Variable consts : Constants.
Variable w : World.

(** utils.ts: [Number(amount)], [formatAmount], [hashSHA256]. *)
Definition toNumber (amount : Amount) : number :=
  match amount with
  | AmountString s => Number_of_string js s
  | AmountNumber n => n
  end.

Definition formatAmount (amount : Amount) (decimalPlaces : Z) : number :=
  Number_of_string js (number_toFixed js (toNumber amount) decimalPlaces).

Definition hashSHA256 (input : string) : string := sha256_hex js input.

(** [quote.expiresIn - 20000 < Date.now()] *)
Definition quoteExpired (quote : Quote.t) (now : Z) : bool :=
  Quote.expiresIn quote - 20000 <? now.

(** [parsedAmount < minRange || parsedAmount > maxRange] *)
Definition outOfRange (parsedAmount minRange maxRange : Z) : bool :=
  (parsedAmount <? minRange) || (parsedAmount >? maxRange).

Definition maxRetries : Z := 5.

(** The [while (retries < maxRetries)] loop of the reporting step and
    the [throw] that follows it.  [answers] are the backend's replies
    to the submissions still to come. *)
Fixpoint reportLoop (fuel : nat) (this : t) (payload : OrderCardRequest.t)
         (buyCardReceipt : TransactionReceipt.t)
         (answers : nat -> RemoteError + OrderWithExtraInfo)
         (retries delay : Z) : M PurchaseResult.t :=
  if retries <? maxRetries then
    match fuel with
    | O => ([], Unfinished)
    | S fuel' =>
        r <- try_ (ZebecCardAPIService.purchaseCard (apiService this) payload
                     (answers 0%nat)) ;;
        match r with
        | inr data =>
            ret {| PurchaseResult.receipt := buyCardReceipt;
                   PurchaseResult.orderDetail := data |}
        | inl error =>
            if maxRetries <=? retries then throw error
            else
              _ <- call (Sleep delay) (inr tt) ;;
              reportLoop fuel' this payload buyCardReceipt
                         (fun n => answers (S n)) (retries + 1) (delay * 2)
        end
    end
  else throw (PlainError "Max retries reached").

Definition purchaseCardWithUsdc (this : t) (params : PurchaseParams.t)
  : M PurchaseResult.t :=
  let quote := PurchaseParams.quote params in
  let recipient := PurchaseParams.recipient params in
  _ <- ZebecCardAPIService.ping w (apiService this) ;;
  cardProgramDetails <-
    ZebecCardAPIService.fetchZebecCardPrograms w (apiService this)
      (Recipient.countryCode recipient) ;;
  match find (fun p => String.eqb (CardProgram.id p)
                                  (PurchaseParams.cardProgramId params))
             (CardProgramWithUserRegion.availablePrograms cardProgramDetails)
  with
  | None => throw (PlainError "Card program not supported for user's region")
  | Some cardProgram =>
  if negb (isEmailValid (Recipient.emailAddress recipient)) then
    throw (InvalidEmailError (Recipient.emailAddress recipient))
  else if negb (String.eqb (string_toLowerCase js (Quote.token quote)) "usdc") then
    throw (PlainError "Invalid Quote: Quote not for USDC")
  else if negb (number_strictEq (Quote.amountRequested quote)
                  (formatAmount (PurchaseParams.amount params) 2)) then
    throw (PlainError "Invalid Quote: Amount request and passed amount does not match")
  else if quoteExpired quote (w_now w) then
    throw (PlainError "Quote expired")
  else if negb (existsb (fun c => String.eqb c (Quote.targetCurrency quote))
                  (CardProgram.availableCurrencies cardProgram)) then
    throw (PlainError
             "Invalid Quote: Target currency in quote not available in card program")
  else
  decimals <- call (Decimals (usdcToken this)) (w_decimals w) ;;
  parsedAmount <-
    ([], match ethers_parseUnits js (number_toString js (Quote.totalPrice quote))
                 decimals with
         | inl e => Throws (Remote e)
         | inr v => Returns v
         end) ;;
  usdcBalance <- call (BalanceOf (usdcToken this) (signer this)) (w_balanceOf w) ;;
  if parsedAmount >? usdcBalance then
    throw (NotEnoughBalanceError (ethers_formatUnits js usdcBalance decimals)
             (number_toString js (Quote.totalPrice quote)))
  else
  cardConfig <- call (ReadCardConfig (zebecCard this)) (w_cardConfig w) ;;
  let minRange := CardConfig.minCardAmount cardConfig in
  let maxRange := CardConfig.maxCardAmount cardConfig in
  if outOfRange parsedAmount minRange maxRange then
    throw (CardPurchaseAmountOutOfRangeError
             (ethers_formatUnits js minRange decimals)
             (ethers_formatUnits js maxRange decimals))
  else
  cardPurchaseInfo <-
    call (ReadCardPurchases (zebecCard this) (signer this)) (w_cardPurchases w) ;;
  (* [new Date(Number(unixInRecord * 1000n))]: the conversion to a double
     is exact up to 2^53 and every larger value is past the range of a
     date, so the date is that of the integer itself. *)
  let lastCardPurchaseDate :=
    JsDate.ofTime (CardPurchaseInfo.unixInRecord cardPurchaseInfo * 1000) in
  let today : JsDate.Date := Some (w_today w) in
  let cardPurchaseOfDay :=
    if areDatesOfSameDay today lastCardPurchaseDate
    then CardPurchaseInfo.totalCardBoughtPerDay cardPurchaseInfo + parsedAmount
    else parsedAmount in
  if cardPurchaseOfDay >? CardConfig.dailyCardBuyLimit cardConfig then
    throw (DailyCardPurchaseLimitExceedError
             (ethers_formatUnits js (CardConfig.dailyCardBuyLimit cardConfig) decimals)
             (ethers_formatUnits js
                (CardPurchaseInfo.totalCardBoughtPerDay cardPurchaseInfo) decimals))
  else
  allowance <-
    call (Allowance (usdcToken this) (signer this) (zebecCard this)) (w_allowance w) ;;
  _ <- (if allowance <? parsedAmount then
          approveResponse <-
            call (Approve (usdcToken this) (zebecCard this) parsedAmount)
                 (w_approve w) ;;
          approveReceipt <- call ApproveWait (w_approveWait w) ;;
          ret tt
        else ret tt) ;;
  let cardType :=
    match CardProgram.type cardProgram with
    | carbon => "reloadable"
    | silver => "non_reloadable"
    end in
  let emailHash := hashSHA256 (Recipient.emailAddress recipient) in
  let given := match PurchaseParams.overrides params with
               | Some o => Overrides.gasLimit o
               | None => None
               end in
  let overrides :=
    {| Overrides.gasLimit :=
         Some (match given with
               | Some g => if g =? 0 then DEFAULT_GAS_LIMIT consts else g
               | None => DEFAULT_GAS_LIMIT consts
               end);
       Overrides.rest := match PurchaseParams.overrides params with
                         | Some o => Overrides.rest o
                         | None => ""
                         end |} in
  buyCardResponse <-
    call (BuyCardDirect (zebecCard this) parsedAmount cardType emailHash overrides)
         (w_buyCardDirect w) ;;
  waited <- call BuyWait (w_buyWait w) ;;
  match waited with
  | None =>
      throw (PlainError ("Could not get tx receipt for tx: "
                         ++ TransactionResponse.hash buyCardResponse))
  | Some buyCardReceipt =>
  let usdAmount := Money.create (Quote.outputAmount quote)
                                (Quote.targetCurrency quote) in
  buyer <- call (GetAddress (signer this)) (w_getAddress w) ;;
  let receipt :=
    Receipt.mk quote
      (Deposit.mk (chainValue (chainId this)) "USDC" (Quote.totalPrice quote)
         (TransactionReceipt.hash buyCardReceipt)
         (TransactionReceipt.hash buyCardReceipt)
         (TransactionReceipt.blockHash buyCardReceipt)
         buyer (Recipient.emailAddress recipient) "") in
  let payload :=
    OrderCardRequest.new usdAmount (PurchaseParams.cardProgramId params)
      recipient receipt in
  reportLoop (Z.to_nat maxRetries) this payload buyCardReceipt
             (w_purchaseCard w) 0 1000
  end
  end.

End Purchase.

End ZebecCardEvmService.

(* ===================================================================== *)
(** ** Sample data for worked examples                                    *)
(* ===================================================================== *)

Module Sample.

Definition lowerAscii (c : ascii) : ascii :=
  if range "A" "Z" c then ascii_of_N (N_of_ascii c + 32) else c.

Fixpoint lower (s : string) : string :=
  match s with
  | EmptyString => EmptyString
  | String c s' => String (lowerAscii c) (lower s')
  end.

(** A runtime in which every amount reads as the number 10. *)
Definition js : JsRuntime :=
  {| Number_of_string := fun _ => Finite (10 # 1);
     number_toFixed := fun _ _ => "10.00";
     number_toString := fun _ => "10";
     string_toLowerCase := lower;
     sha256_hex := fun s => "sha256:" ++ s;
     ethers_parseUnits := fun _ d => inr (10 * 10 ^ d);
     ethers_formatUnits := fun v _ => showZ v |}.

Definition consts : Constants :=
  {| CARD_API_URL_Production := "https://api.example/production";
     CARD_API_URL_Sandbox := "https://api.example/sandbox";
     DEFAULT_GAS_LIMIT := 3000000;
     USDC_ADDRESS := fun c => "usdc@" ++ showZ (chainValue c);
     ZEBEC_CARD_ADDRESS := fun c => "card@" ++ showZ (chainValue c) |}.

Definition apiConfig : APIConfig.t := APIConfig.mk "key" "secret".

(** The recipient of test/purchaseCard.test.ts, with [address2] left out. *)
Definition recipient : Recipient.t :=
  Recipient.new "JohnChamling" "John" "Chamling" "johnchamling@gmail.com"
    "9876543210" "en-US" "Bharatpur" "Bagmati" "44200" "NPL"
    "Shittal street, Bharatpur - 10, Chitwan" "N/A".

(** 2024-01-08T12:00:00Z *)
Definition noon : Z := 1704715200000.

(** A quote for 10 USDC paid out in [currency], valid for 30 seconds
    from [noon]. *)
Definition quoteIn (currency : string) : Quote.t :=
  {| Quote.id := "quote-1";
     Quote.quoteType := EXACT_OUT;
     Quote.inputToken := "USDC";
     Quote.outputToken := currency;
     Quote.inputAmount := Finite (10 # 1);
     Quote.outputAmount := Finite (10 # 1);
     Quote.exchangeRate := Finite (1 # 1);
     Quote.platformFee := Finite (0 # 1);
     Quote.expiresIn := noon + 30000;
     Quote.timestamp := Some noon;
     Quote.token := "USDC";
     Quote.targetCurrency := currency;
     Quote.amountRequested := Finite (10 # 1);
     Quote.pricePerUnitCurrency := Finite (1 # 1);
     Quote.totalPrice := Finite (10 # 1) |}.

Definition quote : Quote.t := quoteIn "USD".

Definition program : CardProgram.t :=
  {| CardProgram.id := "program-1";
     CardProgram.type := silver;
     CardProgram.name := "Silver card";
     CardProgram.description := "";
     CardProgram.isRegional := true;
     CardProgram.isInternational := false;
     CardProgram.availableCurrencies := ["USD"; "EUR"];
     CardProgram.region := "APAC" |}.

Definition catalog : CardProgramWithUserRegion.t :=
  {| CardProgramWithUserRegion.userRegion :=
       UserRegion.mk "Asia Pacific" "APAC" ["USD"; "EUR"] ["NPL"];
     CardProgramWithUserRegion.availablePrograms := [program];
     CardProgramWithUserRegion.currencies := [] |}.

Definition paramsFor (q : Quote.t) : PurchaseParams.t :=
  {| PurchaseParams.amount := AmountString "10";
     PurchaseParams.quote := q;
     PurchaseParams.cardProgramId := "program-1";
     PurchaseParams.recipient := recipient;
     PurchaseParams.overrides := None |}.

Definition params : PurchaseParams.t := paramsFor quote.

Definition buyReceipt : TransactionReceipt.t :=
  TransactionReceipt.mk "0xbuy" "0xblock".

Definition config : CardConfig.t := CardConfig.mk 1000000 1000000000 5000000000.

(** The backend's replies: those of [l] in order, then acceptance. *)
Definition answers (l : list (RemoteError + OrderWithExtraInfo)) (n : nat)
  : RemoteError + OrderWithExtraInfo :=
  nth n l (inr "order-1").

(** Balance 1000 USDC, allowance 0, limits 1 .. 1000 and 5000 a day (6
    decimals); the clock reads [now], the contract holds [record] as the
    buyer's last purchase, the backend replies [replies]. *)
Definition worldOf (now : Z) (record : CardPurchaseInfo.t)
           (replies : nat -> RemoteError + OrderWithExtraInfo) : World :=
  {| w_ping := inr tt;
     w_programs := inr catalog;
     w_now := now;
     w_decimals := inr 6;
     w_balanceOf := inr 1000000000;
     w_cardConfig := inr config;
     w_cardPurchases := inr record;
     w_today := now;
     w_allowance := inr 0;
     w_approve := inr (TransactionResponse.mk "0xapprove");
     w_approveWait := inr (Some (TransactionReceipt.mk "0xapprove" "0xblock0"));
     w_buyCardDirect := inr (TransactionResponse.mk "0xbuy");
     w_buyWait := inr (Some buyReceipt);
     w_getAddress := inr "0xbuyer";
     w_purchaseCard := replies |}.

(** At [noon], nothing bought before. *)
Definition world (replies : nat -> RemoteError + OrderWithExtraInfo) : World :=
  worldOf noon (CardPurchaseInfo.mk 0 0) replies.

(** 2024-01-01T12:00:00Z in seconds: the Monday a week before [noon]. *)
Definition weekBefore : Z := 1704110400.

(** The service on Sepolia in sandbox mode, as built by the constructor. *)
Definition service : ZebecCardEvmService.t :=
  {| ZebecCardEvmService.signer := "0xbuyer";
     ZebecCardEvmService.zebecCard := Contract.mk "card@11155111" "0xbuyer";
     ZebecCardEvmService.usdcToken := Contract.mk "usdc@11155111" "0xbuyer";
     ZebecCardEvmService.chainId := Sepolia;
     ZebecCardEvmService.apiService :=
       ZebecCardAPIService.mk "key" "secret" "https://api.example/sandbox" true;
     ZebecCardEvmService.sandbox := true |}.

End Sample.

(* ===================================================================== *)
(** ** Observations on a trace                                            *)
(* ===================================================================== *)

(** Calls that reach the chain node or the wallet. *)
Definition isChainCall (e : Event) : bool :=
  match e with
  | Decimals _ | BalanceOf _ _ | ReadCardConfig _ | ReadCardPurchases _ _
  | Allowance _ _ _ | Approve _ _ _ | ApproveWait
  | BuyCardDirect _ _ _ _ _ | BuyWait | GetAddress _ => true
  | _ => false
  end.

(** Submitting a transaction and waiting for it. *)
Definition isTransaction (e : Event) : bool :=
  match e with
  | Approve _ _ _ | ApproveWait | BuyCardDirect _ _ _ _ _ | BuyWait => true
  | _ => false
  end.

(** The reporting step: order submissions and the pauses between them. *)
Definition isReporting (e : Event) : bool :=
  match e with
  | PurchaseCard _ | Sleep _ => true
  | _ => false
  end.

Definition isSubmission (e : Event) : bool :=
  match e with
  | PurchaseCard _ => true
  | _ => false
  end.

Definition chainCalls (tr : list Event) : list Event := filter isChainCall tr.
Definition transactions (tr : list Event) : list Event := filter isTransaction tr.
Definition reporting (tr : list Event) : list Event := filter isReporting tr.
Definition submissions (tr : list Event) : list Event := filter isSubmission tr.

(** [l] is an initial segment of [full]. *)
Definition initialSegment {A} (l full : list A) : Prop :=
  exists rest, (l ++ rest)%list = full.

(** The part of [l] from its first element satisfying [p] onwards. *)
Fixpoint fromFirst {A} (p : A -> bool) (l : list A) : list A :=
  match l with
  | [] => []
  | x :: l' => if p x then x :: l' else fromFirst p l'
  end.

(* ===================================================================== *)
(** ** Field constraints of a recipient, for the statements below         *)
(* ===================================================================== *)

Inductive Field : Type :=
| FParticipantId | FFirstName | FLastName | FEmailAddress | FLanguage
| FMobilePhone | FCity | FState | FCountryCode | FPostalCode
| FAddress1 | FAddress2.

(** The field a [ValidationError] message of [Recipient.create] speaks of. *)
Definition blamedField (msg : string) : option Field :=
  if String.eqb msg "Participants must be of 1 to 20 characters."
  then Some FParticipantId
  else if String.eqb msg "Participants must only contains alpha numeric characters"
  then Some FParticipantId
  else if String.eqb msg "Firstname must be within 1 to 50 characters."
  then Some FFirstName
  else if String.eqb msg "Lastname must be within 1 to 50 characters."
  then Some FLastName
  else if String.eqb msg "Email must be within 1 to 80 characters."
  then Some FEmailAddress
  else if String.eqb msg "Email address must be a valid email."
  then Some FEmailAddress
  else if String.eqb msg "Language code is required"
  then Some FLanguage
  else if String.eqb msg "Mobile phone number must be within 1 to 20 characters."
  then Some FMobilePhone
  else if String.eqb msg "City must be within 1 to 50 characters."
  then Some FCity
  else if String.eqb msg "State must be within 1 to 50 characters."
  then Some FState
  else if String.eqb msg "CountryCode must be a valid supported ISO 3166-1 alpha-3 code"
  then Some FCountryCode
  else if String.eqb msg "Postal code must be within 1 to 20 characters."
  then Some FPostalCode
  else if String.eqb msg "Address line 1 must be within 1 to 50 characters."
  then Some FAddress1
  else if String.eqb msg "Address line 2 must be within 1 to 50 characters."
  then Some FAddress2
  else None.

Definition lenBetween (s : string) (lo hi : nat) : Prop :=
  (lo <= String.length s <= hi)%nat.

Section RecipientConstraints.
Variables participantId firstName lastName emailAddress mobilePhone
          language city state postalCode countryCode address1 : string.
Variable address2 : option string.

(** What [Recipient.create] enforces, field by field. *)
Definition enforcedConstraint (f : Field) : Prop :=
  match f with
  | FParticipantId =>
      lenBetween participantId 1 20 /\ isAlphaNumeric participantId = true
  | FFirstName => lenBetween firstName 1 50
  | FLastName => lenBetween lastName 1 50
  | FEmailAddress =>
      lenBetween emailAddress 1 80 /\ isEmailValid emailAddress = true
  | FLanguage => language <> ""
  | FMobilePhone => lenBetween mobilePhone 1 20
  | FCity => lenBetween city 1 35
  | FState => lenBetween state 1 50
  | FCountryCode => In countryCode ALL_COUNTRIES_AND_CODE
  | FPostalCode => lenBetween postalCode 1 20
  | FAddress1 => lenBetween address1 1 50
  | FAddress2 =>
      forall a2, address2 = Some a2 -> (String.length a2 <= 50)%nat
  end.

(** The constraints as the specification words them: the state within
    1 to 20 characters, and a present second address line within 1 to
    50. *)
Definition statedConstraint (f : Field) : Prop :=
  match f with
  | FState => lenBetween state 1 20
  | FAddress2 => forall a2, address2 = Some a2 -> lenBetween a2 1 50
  | _ => enforcedConstraint f
  end.

(** The record that [Recipient.create] builds when it returns. *)
Definition builtRecipient : Recipient.t :=
  Recipient.new participantId firstName lastName emailAddress mobilePhone
    language city state postalCode countryCode address1
    (match address2 with Some a2 => a2 | None => "N/A" end).

End RecipientConstraints.

(** The rejections that come before any chain call once the program of the
    request has been found. *)
Definition preflightRejection (params : PurchaseParams.t) (e : Error) : Prop :=
  e = InvalidEmailError (Recipient.emailAddress (PurchaseParams.recipient params))
  \/ e = PlainError "Invalid Quote: Quote not for USDC"
  \/ e = PlainError "Invalid Quote: Amount request and passed amount does not match"
  \/ e = PlainError "Quote expired"
  \/ e = PlainError
           "Invalid Quote: Target currency in quote not available in card program".

(** The attempt gets as far as the expiry test of the quote: the backend
    answers, the program is in the catalog, and the e-mail, token and
    amount tests pass. *)
Definition reachesQuoteExpiryCheck (js : JsRuntime) (w : World)
           (params : PurchaseParams.t) : Prop :=
  (exists u, w_ping w = inr u)
  /\ (exists details program,
        w_programs w = inr details
        /\ find (fun p => String.eqb (CardProgram.id p)
                                     (PurchaseParams.cardProgramId params))
                (CardProgramWithUserRegion.availablePrograms details)
           = Some program)
  /\ isEmailValid (Recipient.emailAddress (PurchaseParams.recipient params)) = true
  /\ String.eqb (string_toLowerCase js (Quote.token (PurchaseParams.quote params)))
                "usdc" = true
  /\ number_strictEq (Quote.amountRequested (PurchaseParams.quote params))
                     (ZebecCardEvmService.formatAmount js
                        (PurchaseParams.amount params) 2) = true.


(* ===================================================================== *)
(** ** What a pattern matches, for the statements below                   *)
(* ===================================================================== *)

(** The strings of a pattern, by the usual rules. *)
Inductive denotes : re -> string -> Prop :=
| DEps : denotes Eps ""
| DCls p c : p c = true -> denotes (Cls p) (String c "")
| DCat r s u v : denotes r u -> denotes s v -> denotes (Cat r s) (u ++ v)
| DAltL r s u : denotes r u -> denotes (Alt r s) u
| DAltR r s u : denotes s u -> denotes (Alt r s) u
| DStarNil r : denotes (Star r) ""
| DStarApp r u v : denotes r u -> denotes (Star r) v -> denotes (Star r) (u ++ v).

(** Every character of [s] satisfies [p]. *)
Fixpoint allChars (p : ascii -> bool) (s : string) : bool :=
  match s with
  | EmptyString => true
  | String c s' => p c && allChars p s'
  end.

(** How often the character [x] occurs in [s]. *)
Fixpoint countChar (x : ascii) (s : string) : nat :=
  match s with
  | EmptyString => O
  | String c s' => (if Ascii.eqb x c then 1 else 0) + countChar x s'
  end.

(* ===================================================================== *)
(** ** Further observations, for the statements below                     *)
(* ===================================================================== *)

Definition isApprove (e : Event) : bool :=
  match e with
  | Approve _ _ _ => true
  | _ => false
  end.

Definition isBuy (e : Event) : bool :=
  match e with
  | BuyCardDirect _ _ _ _ _ => true
  | _ => false
  end.

(** [n] failed submissions of [payload], each followed by its pause: 1000
    ms after the first, doubled after each further one. *)
Definition backoff (payload : OrderCardRequest.t) (n : nat) : list Event :=
  flat_map (fun i => [PurchaseCard payload; Sleep (1000 * 2 ^ Z.of_nat i)])
           (seq 0 n).

(** [params.overrides?.gasLimit] *)
Definition requestedGasLimit (params : PurchaseParams.t) : option Z :=
  match PurchaseParams.overrides params with
  | Some o => Overrides.gasLimit o
  | None => None
  end.

(** [sdkOptions?.sandbox ? sdkOptions.sandbox : false] *)
Definition sandboxFlag (sdkOptions : option SdkOptions.t) : bool :=
  match sdkOptions with
  | Some o => match SdkOptions.sandbox o with Some true => true | _ => false end
  | None => false
  end.

(** The letters, digits and marks an accepted e-mail address is made of. *)
Definition emailChar (c : ascii) : bool := cls_local c || chr "@" c.

(** The number of days before the first of month [m] (counted from 0),
    less one, in a year whose leap flag is [l]. *)
Definition monthShift (m l : Z) : Z :=
  match m with
  | 0 => -1
  | 1 => 30
  | 2 => 58 + l
  | 3 => 89 + l
  | 4 => 119 + l
  | 5 => 150 + l
  | 6 => 180 + l
  | 7 => 211 + l
  | 8 => 242 + l
  | 9 => 272 + l
  | 10 => 303 + l
  | _ => 333 + l
  end.

(** A world like [Sample.world] whose token balance is [balance] and whose
    buy transaction, once waited for, gives [waited]. *)
Definition sampleWorldWith (balance : Z)
           (waited : RemoteError + option TransactionReceipt.t)
           (replies : nat -> RemoteError + OrderWithExtraInfo) : World :=
  {| w_ping := inr tt;
     w_programs := inr Sample.catalog;
     w_now := Sample.noon;
     w_decimals := inr 6;
     w_balanceOf := inr balance;
     w_cardConfig := inr Sample.config;
     w_cardPurchases := inr (CardPurchaseInfo.mk 0 0);
     w_today := Sample.noon;
     w_allowance := inr 0;
     w_approve := inr (TransactionResponse.mk "0xapprove");
     w_approveWait := inr (Some (TransactionReceipt.mk "0xapprove" "0xblock0"));
     w_buyCardDirect := inr (TransactionResponse.mk "0xbuy");
     w_buyWait := waited;
     w_getAddress := inr "0xbuyer";
     w_purchaseCard := replies |}.

(** The payload that the sample request submits once its buy transaction
    has the receipt [Sample.buyReceipt]. *)
Definition samplePayload : OrderCardRequest.t :=
  OrderCardRequest.new
    (Money.create (Quote.outputAmount Sample.quote) (Quote.targetCurrency Sample.quote))
    "program-1" Sample.recipient
    (Receipt.mk Sample.quote
       (Deposit.mk 11155111 "USDC" (Quote.totalPrice Sample.quote)
          "0xbuy" "0xbuy" "0xblock" "0xbuyer" "johnchamling@gmail.com" "")).

(* ===================================================================== *)
(** ** Tactics                                                            *)
(* ===================================================================== *)

(** Symbolic execution of a purchase attempt. *)

Import ZebecCardEvmService.

#[local] Arguments isEmailValid : simpl never.
#[local] Arguments quoteExpired : simpl never.
#[local] Arguments outOfRange : simpl never.
#[local] Arguments areDatesOfSameDay : simpl never.
#[local] Arguments formatAmount : simpl never.
#[local] Arguments number_strictEq : simpl never.
#[local] Arguments JsDate.ofTime : simpl never.
#[local] Arguments String.eqb : simpl never.

(** The term on which a stuck [match] waits. *)
Ltac head_stuck t :=
  lazymatch t with
  | match ?x with _ => _ end => head_stuck x
  | _ => t
  end.

Ltac run_simpl H :=
  unfold bind, call, try_, ret, throw in H; simpl in H.

(** One step: decide the test the run [H : _ = (tr, out)] waits on, from a
    hypothesis when there is one, by cases otherwise. *)
Ltac run_step H :=
  lazymatch type of H with
  | (_, _) = _ => fail
  | match ?x with _ => _ end = _ =>
      let s := head_stuck x in
      first [ match goal with E : s = _ |- _ => rewrite E in H end
            | destruct s eqn:? ];
      run_simpl H
  end.

(** All runs of [purchaseCardWithUsdc] in world [w], one goal per way the
    attempt can end, with [tr] and [out] replaced by what that run gives. *)
Ltac run_all w H :=
  destruct w;
  unfold purchaseCardWithUsdc, ZebecCardAPIService.ping,
    ZebecCardAPIService.fetchZebecCardPrograms,
    ZebecCardAPIService.purchaseCard in H;
  simpl in *; subst; run_simpl H;
  repeat run_step H;
  injection H as <- <-.

Ltac obs :=
  unfold chainCalls, transactions, reporting, submissions in *;
  cbn [filter fromFirst isChainCall isTransaction isReporting isSubmission In] in *.

Ltac pick := repeat first [ left; reflexivity | right ]; try reflexivity.

(** Boolean tests recorded by the run, as propositions. *)
Ltac bools :=
  repeat match goal with
  | H : negb _ = true |- _ => apply negb_true_iff in H
  | H : negb _ = false |- _ => apply negb_false_iff in H
  | H : (_ <? _) = true |- _ => apply Z.ltb_lt in H
  | H : (_ <? _) = false |- _ => apply Z.ltb_ge in H
  | H : (_ >? _) = true |- _ => rewrite Z.gtb_ltb in H
  | H : (_ >? _) = false |- _ => rewrite Z.gtb_ltb in H
  end.

(** [H : In e tr] on an explicit trace: one goal per event of the trace that
    can be [e], with [H] the equation between the two. *)
Ltac cases_in H :=
  repeat match type of H with
         | _ \/ _ => destruct H as [H|H]; [try discriminate H|]
         | False => destruct H
         end.

(** [H : In e tr] where no event of the explicit trace can be [e]. *)
Ltac not_in H := solve [ cases_in H ].

(** Close a rejecting branch of [Recipient.create]: the message thrown
    speaks of field [f], whose constraint fails. *)
Ltac blame f :=
  right; eexists; exists f; split;
  [ reflexivity
  | split; [ reflexivity | cbn [enforcedConstraint]; intuition congruence ] ].

(** [obs] with the two counting filters as well. *)
Ltac obs_all :=
  unfold chainCalls, transactions, reporting, submissions in *;
  cbn [filter fromFirst isChainCall isTransaction isReporting isSubmission
       isApprove isBuy List.length In] in *.

(** The range and expiry tests recorded by the run, as inequalities. *)
Ltac unbool :=
  unfold quoteExpired, outOfRange in *;
  repeat match goal with
         | H : (_ || _) = false |- _ => apply orb_false_iff in H; destruct H
         end;
  bools.

(* ===================================================================== *)
(** * Properties                                                          *)
(* ===================================================================== *)

(** ** Recipient construction *)

Lemma hasLen_reflect (s : string) (lo hi : Z) :
  0 <= lo -> 0 < hi ->
  reflect (lenBetween s (Z.to_nat lo) (Z.to_nat hi)) (hasLen s lo (Some hi)).
Proof.
  intros Hlo Hhi. unfold hasLen, hasMinLen, hasMaxLen, strlen, lenBetween.
  destruct (Z.eqb_spec hi 0) as [E|_]; [lia|].
  destruct (Z.leb_spec0 lo (Z.of_nat (String.length s)));
    destruct (Z.leb_spec0 (Z.of_nat (String.length s)) hi);
    constructor; lia.
Qed.

Lemma isSupportedCountry_In (c : string) :
  isSupportedCountry c = true <-> In c ALL_COUNTRIES_AND_CODE.
Proof.
  unfold isSupportedCountry. rewrite existsb_exists. split.
  - intros [x [Hin Heq]]. apply String.eqb_eq in Heq. now subst.
  - intros Hin. exists c. split; [assumption | apply String.eqb_refl].
Qed.

Lemma truthy_nonempty (s : string) : Recipient.truthy s = true <-> s <> "".
Proof.
  unfold Recipient.truthy. rewrite negb_true_iff. split.
  - intros H E. subst. discriminate.
  - intros H. apply String.eqb_neq. exact H.
Qed.

Lemma create_cases (pid fn ln em mp lang city st pc cc a1 : string)
      (a2 : option string) :
  let made := Recipient.create pid fn ln em mp lang city st pc cc a1 a2 in
  let enforced := enforcedConstraint pid fn ln em mp lang city st pc cc a1 a2 in
  (made = inr (builtRecipient pid fn ln em mp lang city st pc cc a1 a2)
   /\ forall f, enforced f)
  \/ (exists msg f, made = inl (ValidationError msg)
                    /\ blamedField msg = Some f /\ ~ enforced f).
Proof.
  intros made enforced. unfold made, enforced, Recipient.create.
  destruct (hasLen_reflect pid 1 20) as [L1|L1]; try lia; cbn [negb];
    [|blame FParticipantId].
  destruct (isAlphaNumeric pid) eqn:A1; cbn [negb]; [|blame FParticipantId].
  destruct (hasLen_reflect fn 1 50) as [L2|L2]; try lia; cbn [negb];
    [|blame FFirstName].
  destruct (hasLen_reflect ln 1 50) as [L3|L3]; try lia; cbn [negb];
    [|blame FLastName].
  destruct (hasLen_reflect em 1 80) as [L4|L4]; try lia; cbn [negb];
    [|blame FEmailAddress].
  destruct (isEmailValid em) eqn:A2; cbn [negb]; [|blame FEmailAddress].
  destruct (Recipient.truthy lang) eqn:T; cbn [negb];
    [ apply truthy_nonempty in T
    | right; eexists; exists FLanguage; split; [reflexivity|split; [reflexivity|]];
      cbn [enforcedConstraint]; intros N; apply truthy_nonempty in N; congruence ].
  destruct (hasLen_reflect mp 1 20) as [L5|L5]; try lia; cbn [negb];
    [|blame FMobilePhone].
  destruct (hasLen_reflect city 1 35) as [L6|L6]; try lia; cbn [negb];
    [|blame FCity].
  destruct (hasLen_reflect st 1 50) as [L7|L7]; try lia; cbn [negb];
    [|blame FState].
  destruct (isSupportedCountry cc) eqn:C; cbn [negb];
    [ apply isSupportedCountry_In in C
    | right; eexists; exists FCountryCode; split; [reflexivity|split; [reflexivity|]];
      cbn [enforcedConstraint]; intros N; apply isSupportedCountry_In in N; congruence ].
  destruct (hasLen_reflect pc 1 20) as [L8|L8]; try lia; cbn [negb];
    [|blame FPostalCode].
  destruct (hasLen_reflect a1 1 50) as [L9|L9]; try lia; cbn [negb];
    [|blame FAddress1].
  destruct a2 as [x|].
  - destruct (Recipient.truthy x) eqn:Tx; cbn [andb].
    + destruct (hasLen_reflect x 1 50) as [L10|L10]; try lia; cbn [negb].
      * left. split; [reflexivity|].
        intros []; cbn [enforcedConstraint]; auto.
        intros y [= <-]. unfold lenBetween in L10. simpl in L10. lia.
      * right; eexists; exists FAddress2; split; [reflexivity|split; [reflexivity|]].
        cbn [enforcedConstraint]. intros N. apply L10.
        apply truthy_nonempty in Tx. specialize (N x eq_refl).
        unfold lenBetween. simpl. destruct x; [congruence| simpl in *; lia].
    + left. split; [reflexivity|].
      intros []; cbn [enforcedConstraint]; auto.
      intros y [= <-]. unfold Recipient.truthy in Tx.
      apply negb_false_iff, String.eqb_eq in Tx. subst. simpl. lia.
  - left. split; [reflexivity|].
    intros []; cbn [enforcedConstraint]; auto. discriminate.
Qed.

(** C8 (as amended).  [Recipient.create] returns exactly when every
    constraint it enforces holds: participant id 1-20 characters and
    alphanumeric, first and last name 1-50, e-mail 1-80 and well formed,
    language not empty, mobile phone 1-20, city 1-35, state 1-50, country
    code in the supported table, postal code 1-20, address line 1 1-50,
    and a given address line 2 of at most 50 characters.  What it returns
    is the record of its arguments, with "N/A" for an address line 2 left
    out; otherwise it throws a [ValidationError] whose message speaks of a
    field whose constraint is violated, and nothing is built. *)
Theorem recipient_create_enforced_constraints
        (pid fn ln em mp lang city st pc cc a1 : string) (a2 : option string) :
  let made := Recipient.create pid fn ln em mp lang city st pc cc a1 a2 in
  let enforced := enforcedConstraint pid fn ln em mp lang city st pc cc a1 a2 in
  ((forall f, enforced f) <-> exists r, made = inr r)
  /\ (forall r, made = inr r ->
        r = builtRecipient pid fn ln em mp lang city st pc cc a1 a2)
  /\ (forall e, made = inl e ->
        exists msg f, e = ValidationError msg
                      /\ blamedField msg = Some f /\ ~ enforced f).
Proof.
  intros made enforced.
  destruct (create_cases pid fn ln em mp lang city st pc cc a1 a2)
    as [[Hok Hall] | (msg & f & Hko & Hb & Hn)];
    fold made in Hok || fold made in Hko; fold enforced in Hall || fold enforced in Hn.
  - repeat split.
    + intros _. eexists. exact Hok.
    + intros _. exact Hall.
    + intros r Hr. congruence.
    + intros e He. congruence.
  - repeat split.
    + intros Hall. exfalso. apply Hn, Hall.
    + intros [r Hr]. congruence.
    + intros r Hr. congruence.
    + intros e He. exists msg, f. repeat split; congruence.
Qed.

(** C8, counterexample to the claim as worded: a state of 25 characters is
    accepted although the worded bound for the state is 20. *)
Lemma recipient_create_state_counterexample :
  let st := "Newfoundland and Labrador" in
  (exists r,
      Recipient.create "JohnChamling" "John" "Chamling" "johnchamling@gmail.com"
        "9876543210" "en-US" "St. John's" st "A1A1A1" "CAN" "1 Water Street" None
      = inr r)
  /\ ~ (forall f,
          statedConstraint "JohnChamling" "John" "Chamling" "johnchamling@gmail.com"
            "9876543210" "en-US" "St. John's" st "A1A1A1" "CAN" "1 Water Street"
            None f).
Proof.
  split.
  - eexists. vm_compute. reflexivity.
  - intros H. specialize (H FState). cbn in H. unfold lenBetween in H.
    simpl in H. lia.
Qed.

(** An empty address line 2 is taken as it is: it is neither rejected nor
    replaced by "N/A". *)
Lemma recipient_create_empty_address2 :
  exists r,
    Recipient.create "JohnChamling" "John" "Chamling" "johnchamling@gmail.com"
      "9876543210" "en-US" "Bharatpur" "Bagmati" "44200" "NPL" "Shittal street"
      (Some "") = inr r
    /\ Recipient.address2 r = "".
Proof. eexists. split; vm_compute; reflexivity. Qed.

Lemma sample_recipient_created :
  Recipient.create "JohnChamling" "John" "Chamling" "johnchamling@gmail.com"
    "9876543210" "en-US" "Bharatpur" "Bagmati" "44200" "NPL"
    "Shittal street, Bharatpur - 10, Chitwan" None = inr Sample.recipient.
Proof. vm_compute. reflexivity. Qed.

(** ** Chain selection *)

(** C9.  The constructor returns a service exactly when the sandbox flag
    is set and the chain id is one of Sepolia, BscTestnet, PolygonAmoy, or
    the flag is not set (false, absent, or no options at all) and the
    chain id is one of Mainnet, Base, Bsc, Polygon; the service then holds
    the chain of that id.  Every other combination throws. *)
Theorem constructor_accepts_matching_chains
        (consts : Constants) (signer : Signer) (chainId : Z)
        (apiConfig : APIConfig.t) (sdkOptions : option SdkOptions.t) :
  let made := ZebecCardEvmService.constructor consts signer chainId apiConfig
                sdkOptions in
  ((exists svc, made = inr svc) <->
   (sdkOptions = Some (SdkOptions.mk (Some true))
    /\ In chainId [11155111; 97; 80002])
   \/ (sdkOptions <> Some (SdkOptions.mk (Some true))
       /\ In chainId [1; 8453; 56; 137]))
  /\ (forall svc, made = inr svc ->
        chainValue (ZebecCardEvmService.chainId svc) = chainId).
Proof.
  intros made. unfold made, ZebecCardEvmService.constructor, parseSupportedChain,
    TESTNET_CHAINIDS, includes. cbn [existsb chainValue In].
  assert (Hflag :
    (sdkOptions = Some (SdkOptions.mk (Some true))
     /\ match sdkOptions with
        | Some o => match SdkOptions.sandbox o with Some true => true | _ => false end
        | None => false
        end = true)
    \/ (sdkOptions <> Some (SdkOptions.mk (Some true))
        /\ match sdkOptions with
           | Some o => match SdkOptions.sandbox o with Some true => true | _ => false end
           | None => false
           end = false)).
  { destruct sdkOptions as [[[[|]|]]|]; cbn; (left; split; [reflexivity|reflexivity])
                                           || (right; split; [discriminate|reflexivity]). }
  destruct Hflag as [[Ho ->] | [Ho ->]]; cbn [andb orb negb];
    destruct (Z.eqb_spec chainId 97); destruct (Z.eqb_spec chainId 80002);
    destruct (Z.eqb_spec chainId 11155111); destruct (Z.eqb_spec chainId 1);
    destruct (Z.eqb_spec chainId 8453); destruct (Z.eqb_spec chainId 56);
    destruct (Z.eqb_spec chainId 137); cbn [andb orb negb]; try lia;
    (split; [split; [intros [svc Hs]; try discriminate; intuition lia
                    | intros H; try (eexists; reflexivity); exfalso; intuition lia]
            | intros svc [= <-]; cbn; try discriminate; lia]).
Qed.

(** The attempt always ends: the retry loop never outruns its fuel. *)
Lemma purchase_total js consts w this params :
  outcome (purchaseCardWithUsdc js consts w this params) <> Unfinished.
Proof.
  unfold outcome.
  destruct (purchaseCardWithUsdc js consts w this params) as [tr out] eqn:Hrun.
  run_all w Hrun; discriminate.
Qed.

(** ** Reporting with retries *)

(** When the first five submissions fail, the attempt submits five times,
    pausing 1, 2, 4, 8 and 16 seconds after the failures, and then throws
    the fixed error "Max retries reached": the [throw error] inside the
    [catch] is never reached, because [retries >= maxRetries] is tested
    before [retries] is incremented, inside a loop that runs only while
    [retries < maxRetries]. *)
Lemma reporting_gives_up_after_five js consts w this params e1 e2 e3 e4 e5 :
  let run := purchaseCardWithUsdc js consts w this params in
  submissions (trace run) <> [] ->
  w_purchaseCard w 0%nat = inl e1 ->
  w_purchaseCard w 1%nat = inl e2 ->
  w_purchaseCard w 2%nat = inl e3 ->
  w_purchaseCard w 3%nat = inl e4 ->
  w_purchaseCard w 4%nat = inl e5 ->
  exists payload,
    fromFirst isReporting (trace run) =
      [PurchaseCard payload; Sleep 1000; PurchaseCard payload; Sleep 2000;
       PurchaseCard payload; Sleep 4000; PurchaseCard payload; Sleep 8000;
       PurchaseCard payload; Sleep 16000]
    /\ outcome run = Throws (PlainError "Max retries reached").
Proof.
  intros run. unfold run, trace, outcome.
  destruct (purchaseCardWithUsdc js consts w this params) as [tr out] eqn:Hrun.
  intros Hsub H0 H1 H2 H3 H4.
  run_all w Hrun; obs; try congruence.
  all: eexists; split; reflexivity.
Qed.

(** C1, at the failing input.  With a backend that rejects five submissions
    in a row with the errors "e1" .. "e5" (and would accept a sixth), the
    attempt makes exactly five submissions and no sixth, but what it throws
    is the fixed error "Max retries reached", not the last underlying error
    "e5". *)
Theorem reporting_five_failures_sample :
  let run :=
    purchaseCardWithUsdc Sample.js Sample.consts
      (Sample.world (Sample.answers [inl "e1"; inl "e2"; inl "e3"; inl "e4"; inl "e5"]))
      Sample.service Sample.params in
  List.length (submissions (trace run)) = 5%nat
  /\ map (fun e => match e with Sleep ms => ms | _ => 0 end)
         (filter (fun e => negb (isSubmission e)) (reporting (trace run)))
     = [1000; 2000; 4000; 8000; 16000]
  /\ outcome run = Throws (PlainError "Max retries reached")
  /\ outcome run <> Throws (Remote "e5").
Proof.
  intros run.
  destruct (reporting_gives_up_after_five Sample.js Sample.consts
              (Sample.world (Sample.answers
                 [inl "e1"; inl "e2"; inl "e3"; inl "e4"; inl "e5"]))
              Sample.service Sample.params "e1" "e2" "e3" "e4" "e5")
    as [payload [Htr Hout]]; try reflexivity.
  { vm_compute. discriminate. }
  fold run in Htr, Hout. rewrite Hout.
  repeat split; try discriminate; vm_compute; reflexivity.
Qed.

(** C2.  When the attempt gets to report and the first two submissions fail
    while the third succeeds, the reporting step is exactly: submit, pause
    1000 ms, submit, pause 2000 ms, submit; and the attempt returns the
    receipt of the buy transaction with the order detail of the third
    reply. *)
Theorem reporting_retries_with_backoff js consts w this params e1 e2 d :
  let run := purchaseCardWithUsdc js consts w this params in
  submissions (trace run) <> [] ->
  w_purchaseCard w 0%nat = inl e1 ->
  w_purchaseCard w 1%nat = inl e2 ->
  w_purchaseCard w 2%nat = inr d ->
  exists payload buyCardReceipt,
    w_buyWait w = inr (Some buyCardReceipt)
    /\ fromFirst isReporting (trace run) =
         [PurchaseCard payload; Sleep 1000; PurchaseCard payload; Sleep 2000;
          PurchaseCard payload]
    /\ outcome run = Returns {| PurchaseResult.receipt := buyCardReceipt;
                                PurchaseResult.orderDetail := d |}.
Proof.
  intros run. unfold run, trace, outcome.
  destruct (purchaseCardWithUsdc js consts w this params) as [tr out] eqn:Hrun.
  intros Hsub H0 H1 H2.
  run_all w Hrun; obs; try congruence.
  all: do 2 eexists; repeat split; reflexivity.
Qed.

Lemma reporting_retries_with_backoff_witness :
  let w := Sample.world (Sample.answers [inl "e1"; inl "e2"; inr "order-7"]) in
  let run := purchaseCardWithUsdc Sample.js Sample.consts w Sample.service
               Sample.params in
  (submissions (trace run) <> []
   /\ w_purchaseCard w 0%nat = inl "e1"
   /\ w_purchaseCard w 1%nat = inl "e2"
   /\ w_purchaseCard w 2%nat = inr "order-7")
  /\ exists payload buyCardReceipt,
      w_buyWait w = inr (Some buyCardReceipt)
      /\ fromFirst isReporting (trace run) =
           [PurchaseCard payload; Sleep 1000; PurchaseCard payload; Sleep 2000;
            PurchaseCard payload]
      /\ outcome run = Returns {| PurchaseResult.receipt := buyCardReceipt;
                                  PurchaseResult.orderDetail := "order-7" |}.
Proof.
  intros w run.
  assert (Hsub : submissions (trace run) <> []) by (vm_compute; discriminate).
  split.
  - repeat split; try reflexivity. exact Hsub.
  - apply (reporting_retries_with_backoff Sample.js Sample.consts w Sample.service
             Sample.params "e1" "e2" "order-7" Hsub); reflexivity.
Defined.

(** ** Quote validation *)

(** C3 (as amended).  The expiry test passes exactly when the clock reads
    at most [expiresIn - 20000] milliseconds.  When it reads more, the
    attempt fails without a single chain call, and the error is
    "Quote expired" whenever the attempt gets as far as the expiry test. *)
Theorem expired_quote_rejected_before_chain js consts w this params :
  let run := purchaseCardWithUsdc js consts w this params in
  let quote := PurchaseParams.quote params in
  (quoteExpired quote (w_now w) = false <-> w_now w <= Quote.expiresIn quote - 20000)
  /\ (w_now w > Quote.expiresIn quote - 20000 ->
      (exists e, outcome run = Throws e)
      /\ chainCalls (trace run) = []
      /\ (reachesQuoteExpiryCheck js w params ->
          outcome run = Throws (PlainError "Quote expired"))).
Proof.
  intros run quote. split.
  { unfold quoteExpired. rewrite Z.ltb_ge. reflexivity. }
  intros Hlate.
  assert (Hexp : quoteExpired quote (w_now w) = true).
  { unfold quoteExpired. apply Z.ltb_lt. lia. }
  unfold run, trace, outcome, reachesQuoteExpiryCheck. clear Hlate. subst quote.
  destruct (purchaseCardWithUsdc js consts w this params) as [tr out] eqn:Hrun.
  run_all w Hrun; obs; bools.
  all: repeat split; try (eexists; reflexivity); try reflexivity.
  all: intros ([? Hu] & (? & ? & Hd & Hf) & He & Ht & Ha); congruence.
Qed.

Lemma sample_reaches_expiry_check now record replies :
  reachesQuoteExpiryCheck Sample.js (Sample.worldOf now record replies) Sample.params.
Proof.
  unfold reachesQuoteExpiryCheck. split; [eexists; reflexivity|].
  split; [do 2 eexists; split; reflexivity|].
  repeat split; vm_compute; reflexivity.
Qed.

Lemma expired_quote_rejected_before_chain_witness :
  let w := Sample.worldOf (Sample.noon + 10001) (CardPurchaseInfo.mk 0 0)
             (Sample.answers []) in
  let run := purchaseCardWithUsdc Sample.js Sample.consts w Sample.service
               Sample.params in
  (w_now w > Quote.expiresIn Sample.quote - 20000
   /\ reachesQuoteExpiryCheck Sample.js w Sample.params)
  /\ chainCalls (trace run) = []
  /\ outcome run = Throws (PlainError "Quote expired").
Proof.
  intros w run.
  assert (Hlate : w_now w > Quote.expiresIn Sample.quote - 20000)
    by (vm_compute; reflexivity).
  pose proof (sample_reaches_expiry_check (Sample.noon + 10001)
                (CardPurchaseInfo.mk 0 0) (Sample.answers [])) as Hreach.
  destruct (expired_quote_rejected_before_chain Sample.js Sample.consts w
              Sample.service Sample.params) as [_ H].
  destruct (H Hlate) as (_ & Hnone & Hout).
  split; [split; assumption|]. split; [exact Hnone | exact (Hout Hreach)].
Defined.

(** C3, counterexample to the claim as worded.  The clock reads exactly
    [expiresIn - 20000], so it is not strictly before the margin; the
    expiry test passes all the same, the chain is called and the purchase
    goes through. *)
Lemma quote_at_margin_accepted :
  let w := Sample.worldOf (Quote.expiresIn Sample.quote - 20000)
             (CardPurchaseInfo.mk 0 0) (Sample.answers []) in
  let run := purchaseCardWithUsdc Sample.js Sample.consts w Sample.service
               Sample.params in
  w_now w >= Quote.expiresIn Sample.quote - 20000
  /\ quoteExpired Sample.quote (w_now w) = false
  /\ List.length (chainCalls (trace run)) = 10%nat
  /\ outcome run = Returns {| PurchaseResult.receipt := Sample.buyReceipt;
                              PurchaseResult.orderDetail := "order-1" |}.
Proof.
  intros w run. repeat split; vm_compute; try reflexivity. discriminate.
Qed.

(** C6.  When the program of the request is found in the fetched catalog
    and its currencies do not include the target currency of the quote,
    the attempt fails and no call reaches the chain: no read, no approval,
    no buy.  Once the backend has answered the ping, the failure is one of
    the pre-flight rejections; when the attempt gets as far as the
    currency test (earlier tests pass, quote not expired) it is the
    currency error itself. *)
Theorem currency_mismatch_rejected js consts w this params details program :
  let run := purchaseCardWithUsdc js consts w this params in
  let quote := PurchaseParams.quote params in
  w_programs w = inr details ->
  find (fun p => String.eqb (CardProgram.id p) (PurchaseParams.cardProgramId params))
       (CardProgramWithUserRegion.availablePrograms details) = Some program ->
  ~ In (Quote.targetCurrency quote) (CardProgram.availableCurrencies program) ->
  exists e,
    outcome run = Throws e
    /\ chainCalls (trace run) = []
    /\ ((exists u, w_ping w = inr u) -> preflightRejection params e)
    /\ (reachesQuoteExpiryCheck js w params ->
        w_now w <= Quote.expiresIn quote - 20000 ->
        e = PlainError
              "Invalid Quote: Target currency in quote not available in card program").
Proof.
  intros run quote Hd Hf Hnot.
  assert (Hex : existsb (fun c => String.eqb c (Quote.targetCurrency quote))
                  (CardProgram.availableCurrencies program) = false).
  { destruct (existsb _ _) eqn:E; [|reflexivity]. exfalso. apply Hnot.
    apply existsb_exists in E. destruct E as [c [Hin Hc]].
    apply String.eqb_eq in Hc. now subst. }
  clear Hnot. subst quote.
  unfold run, trace, outcome, reachesQuoteExpiryCheck, preflightRejection.
  destruct (purchaseCardWithUsdc js consts w this params) as [tr out] eqn:Hrun.
  run_all w Hrun; obs; unfold quoteExpired in *; bools; try congruence.
  all: eexists; split; [reflexivity|]; split; [reflexivity|].
  all: split; [ intros [? Hu]; first [ discriminate | solve [pick] ]
              | intros ([? Hu] & (? & ? & Hd' & Hf') & He & Ht & Ha) Hnow;
                first [ reflexivity | discriminate | congruence | lia ] ].
Qed.

Lemma currency_mismatch_rejected_witness :
  let params := Sample.paramsFor (Sample.quoteIn "GBP") in
  let w := Sample.world (Sample.answers []) in
  let run := purchaseCardWithUsdc Sample.js Sample.consts w Sample.service params in
  (w_programs w = inr Sample.catalog
   /\ find (fun p => String.eqb (CardProgram.id p) "program-1")
           (CardProgramWithUserRegion.availablePrograms Sample.catalog)
      = Some Sample.program
   /\ ~ In "GBP" (CardProgram.availableCurrencies Sample.program))
  /\ exists e,
      outcome run = Throws e
      /\ chainCalls (trace run) = []
      /\ e = PlainError
               "Invalid Quote: Target currency in quote not available in card program".
Proof.
  intros params w run.
  assert (Hnot : ~ In "GBP" (CardProgram.availableCurrencies Sample.program)).
  { simpl. intros [H|[H|[]]]; discriminate. }
  split; [split; [reflexivity | split; [reflexivity | exact Hnot]]|].
  destruct (currency_mismatch_rejected Sample.js Sample.consts w Sample.service
              params Sample.catalog Sample.program eq_refl eq_refl Hnot)
    as (e & Hout & Hnone & _ & Hcur).
  exists e. repeat split; try assumption. apply Hcur.
  - unfold reachesQuoteExpiryCheck. split; [eexists; reflexivity|].
    split; [do 2 eexists; split; reflexivity|].
    repeat split; vm_compute; reflexivity.
  - vm_compute. discriminate.
Defined.

(** ** Amount checks *)

(** C7.  When the attempt gets as far as reading the card configuration,
    it throws [CardPurchaseAmountOutOfRangeError], carrying the formatted
    bounds, if the converted amount is strictly below the minimum or
    strictly above the maximum; and it throws no such error when the
    amount lies between the bounds, the bounds included. *)
Theorem range_check_inclusive js consts w this params d p cfg :
  let run := purchaseCardWithUsdc js consts w this params in
  let minRange := CardConfig.minCardAmount cfg in
  let maxRange := CardConfig.maxCardAmount cfg in
  w_decimals w = inr d ->
  ethers_parseUnits js
    (number_toString js (Quote.totalPrice (PurchaseParams.quote params))) d = inr p ->
  w_cardConfig w = inr cfg ->
  In (ReadCardConfig (zebecCard this)) (trace run) ->
  (p < minRange \/ p > maxRange ->
   outcome run = Throws (CardPurchaseAmountOutOfRangeError
                           (ethers_formatUnits js minRange d)
                           (ethers_formatUnits js maxRange d)))
  /\ (minRange <= p <= maxRange ->
      forall a b, outcome run <> Throws (CardPurchaseAmountOutOfRangeError a b)).
Proof.
  intros run minRange maxRange Hd Hp Hc. unfold run, trace, outcome.
  destruct (purchaseCardWithUsdc js consts w this params) as [tr out] eqn:Hrun.
  run_all w Hrun; obs; bools.
  all: intros Hin; try not_in Hin.
  all: subst minRange maxRange; unfold outOfRange in *.
  all: repeat match goal with
       | H : (_ || _) = true |- _ => apply orb_true_iff in H; destruct H
       | H : (_ || _) = false |- _ => apply orb_false_iff in H; destruct H
       end; bools.
  all: split; [ intros; first [ reflexivity | lia ]
              | intros; first [ discriminate | lia ] ].
Qed.

(** A world like the sample one, except that the card's minimum is exactly
    the 10 USDC of the request and the allowance already covers it. *)
Lemma range_check_inclusive_witness :
  let cfg := CardConfig.mk 10000000 1000000000 5000000000 in
  let w :=
    {| w_ping := inr tt;
       w_programs := inr Sample.catalog;
       w_now := Sample.noon;
       w_decimals := inr 6;
       w_balanceOf := inr 1000000000;
       w_cardConfig := inr cfg;
       w_cardPurchases := inr (CardPurchaseInfo.mk 0 0);
       w_today := Sample.noon;
       w_allowance := inr 10000000;
       w_approve := inl "unused";
       w_approveWait := inl "unused";
       w_buyCardDirect := inr (TransactionResponse.mk "0xbuy");
       w_buyWait := inr (Some Sample.buyReceipt);
       w_getAddress := inr "0xbuyer";
       w_purchaseCard := Sample.answers [] |} in
  let run := purchaseCardWithUsdc Sample.js Sample.consts w Sample.service
               Sample.params in
  (In (ReadCardConfig (zebecCard Sample.service)) (trace run)
   /\ CardConfig.minCardAmount cfg <= 10000000 <= CardConfig.maxCardAmount cfg)
  /\ (forall a b, outcome run <> Throws (CardPurchaseAmountOutOfRangeError a b))
  /\ outcome run = Returns {| PurchaseResult.receipt := Sample.buyReceipt;
                              PurchaseResult.orderDetail := "order-1" |}.
Proof.
  intros cfg w run.
  assert (Hin : In (ReadCardConfig (zebecCard Sample.service)) (trace run)).
  { vm_compute. pick. }
  assert (Hb : CardConfig.minCardAmount cfg <= 10000000 <= CardConfig.maxCardAmount cfg).
  { split; vm_compute; discriminate. }
  split; [split; assumption|]. split.
  - destruct (range_check_inclusive Sample.js Sample.consts w Sample.service
                Sample.params 6 10000000 cfg eq_refl eq_refl eq_refl Hin) as [_ H].
    exact (H Hb).
  - vm_compute. reflexivity.
Defined.

(** ** Daily limit *)

(** The year search of [JsDate.YearFromTime] meets the ECMAScript
    definition: the year found starts on or before the day, and the next
    year starts after it. *)
Lemma yearUp_bounds (fuel : nat) (y d : Z) :
  JsDate.DayFromYear y <= d ->
  d < JsDate.DayFromYear (y + Z.of_nat fuel + 1) ->
  JsDate.DayFromYear (JsDate.yearUp fuel y d) <= d
    < JsDate.DayFromYear (JsDate.yearUp fuel y d + 1).
Proof.
  revert y. induction fuel as [|f IH]; intros y Hlo Hhi; cbn [JsDate.yearUp].
  - replace (y + Z.of_nat 0 + 1) with (y + 1) in Hhi by lia. lia.
  - destruct (Z.leb_spec (JsDate.DayFromYear (y + 1)) d) as [Hle|Hgt].
    + apply IH; [exact Hle|].
      replace (y + 1 + Z.of_nat f + 1) with (y + Z.of_nat (S f) + 1) by lia.
      exact Hhi.
    + lia.
Qed.

Lemma yearBelow_starts_before (d : Z) :
  JsDate.DayFromYear (JsDate.yearBelow d) <= d.
Proof.
  unfold JsDate.yearBelow, JsDate.DayFromYear.
  destruct (Z.leb_spec 0 d); Z.div_mod_to_equations; lia.
Qed.

Lemma yearBelow_fuel_reaches (d : Z) :
  d < JsDate.DayFromYear
        (JsDate.yearBelow d + Z.of_nat (Z.to_nat (Z.abs d / 100000 + 2)) + 1).
Proof.
  rewrite Z2Nat.id by (pose proof (Z.abs_nonneg d); Z.div_mod_to_equations; lia).
  unfold JsDate.yearBelow, JsDate.DayFromYear.
  destruct (Z.leb_spec 0 d).
  - rewrite Z.abs_eq by lia. Z.div_mod_to_equations. lia.
  - rewrite Z.abs_neq by lia. Z.div_mod_to_equations. lia.
Qed.

Lemma YearFromTime_bounds (t : Z) :
  JsDate.DayFromYear (JsDate.YearFromTime t) <= JsDate.Day t
    < JsDate.DayFromYear (JsDate.YearFromTime t + 1).
Proof.
  unfold JsDate.YearFromTime. apply yearUp_bounds.
  - apply yearBelow_starts_before.
  - apply yearBelow_fuel_reaches.
Qed.

(** A year has 365 days, or 366 when it is a leap year. *)
Lemma DayFromYear_step (y : Z) :
  JsDate.DayFromYear (y + 1)
  = JsDate.DayFromYear y + (if JsDate.isLeap y then 366 else 365).
Proof.
  unfold JsDate.DayFromYear, JsDate.isLeap.
  destruct (Z.eqb_spec (y mod 4) 0); destruct (Z.eqb_spec (y mod 100) 0);
    destruct (Z.eqb_spec (y mod 400) 0); cbn [negb];
    Z.div_mod_to_equations; lia.
Qed.

Lemma DayWithinYear_bounds (t : Z) :
  0 <= JsDate.DayWithinYear t < 365 + JsDate.InLeapYear t.
Proof.
  unfold JsDate.DayWithinYear, JsDate.InLeapYear.
  pose proof (YearFromTime_bounds t) as H.
  rewrite DayFromYear_step in H.
  destruct (JsDate.isLeap (JsDate.YearFromTime t)); lia.
Qed.

(** X14.  When the attempt gets as far as reading the purchase record, the
    day's total is the recorded total plus the amount when
    [areDatesOfSameDay] holds of now and the recorded purchase, and the
    amount alone otherwise; a total above the daily limit throws
    [DailyCardPurchaseLimitExceedError] with the formatted limit and
    recorded total, a total within the limit never throws it. *)
Lemma daily_limit_rule js consts w this params d p cfg info :
  let run := purchaseCardWithUsdc js consts w this params in
  let limit := CardConfig.dailyCardBuyLimit cfg in
  let recorded := CardPurchaseInfo.totalCardBoughtPerDay info in
  let ofDay :=
    if areDatesOfSameDay (Some (w_today w))
         (JsDate.ofTime (CardPurchaseInfo.unixInRecord info * 1000))
    then recorded + p else p in
  w_decimals w = inr d ->
  ethers_parseUnits js
    (number_toString js (Quote.totalPrice (PurchaseParams.quote params))) d = inr p ->
  w_cardConfig w = inr cfg ->
  w_cardPurchases w = inr info ->
  In (ReadCardPurchases (zebecCard this) (signer this)) (trace run) ->
  (ofDay > limit ->
   outcome run = Throws (DailyCardPurchaseLimitExceedError
                           (ethers_formatUnits js limit d)
                           (ethers_formatUnits js recorded d)))
  /\ (ofDay <= limit ->
      forall a b, outcome run <> Throws (DailyCardPurchaseLimitExceedError a b)).
Proof.
  intros run limit recorded ofDay Hd Hp Hc Hi. unfold run, trace, outcome.
  destruct (purchaseCardWithUsdc js consts w this params) as [tr out] eqn:Hrun.
  run_all w Hrun; obs; bools.
  all: intros Hin; try not_in Hin.
  all: subst limit recorded ofDay.
  all: split; [ intros; first [ reflexivity | lia ]
              | intros; first [ discriminate | lia ] ].
Qed.

(** X5.  Two instants of the same UTC day are always classified as the same
    day: the weekday comparison never splits one day in two. *)
Lemma same_date_is_same_day (t1 t2 : Z) :
  JsDate.Day t1 = JsDate.Day t2 -> areDatesOfSameDay (Some t1) (Some t2) = true.
Proof.
  intros H. unfold areDatesOfSameDay, JsDate.getUTCDay, JsDate.getUTCMonth,
    JsDate.getUTCFullYear, JsDate.strictEq, option_map.
  unfold JsDate.WeekDay, JsDate.MonthFromTime, JsDate.InLeapYear,
    JsDate.DayWithinYear, JsDate.YearFromTime.
  rewrite H, !Z.eqb_refl. reflexivity.
Qed.

(** What [areDatesOfSameDay] compares on two valid dates: the day of the
    week, the month and the year. *)
Lemma areDatesOfSameDay_compares_weekday (t1 t2 : Z) :
  areDatesOfSameDay (Some t1) (Some t2) = true
  <-> JsDate.WeekDay t1 = JsDate.WeekDay t2
      /\ JsDate.MonthFromTime t1 = JsDate.MonthFromTime t2
      /\ JsDate.YearFromTime t1 = JsDate.YearFromTime t2.
Proof.
  unfold areDatesOfSameDay, JsDate.getUTCDay, JsDate.getUTCMonth,
    JsDate.getUTCFullYear, JsDate.strictEq, option_map.
  rewrite !andb_true_iff, !Z.eqb_eq. tauto.
Qed.

(** C4, at the failing input.  Today is Monday 2024-01-08 and the recorded
    last purchase is of Monday 2024-01-01: the days of the month differ (8
    and 1), yet [areDatesOfSameDay] answers [true] because the weekday,
    month and year agree.  With 4995 USDC on record and a limit of 5000,
    a purchase of 10 USDC is then refused as exceeding the daily limit,
    whereas the same purchase with the record dated one day later,
    Tuesday 2024-01-02, goes through. *)
Theorem same_weekday_counts_as_same_day :
  let today : JsDate.Date := Some Sample.noon in
  let last := JsDate.ofTime (Sample.weekBefore * 1000) in
  let attempt unix :=
    purchaseCardWithUsdc Sample.js Sample.consts
      (Sample.worldOf Sample.noon (CardPurchaseInfo.mk unix 4995000000)
         (Sample.answers []))
      Sample.service Sample.params in
  (JsDate.getUTCDate today = Some 8 /\ JsDate.getUTCDate last = Some 1)
  /\ (JsDate.getUTCDay today = Some 1 /\ JsDate.getUTCDay last = Some 1)
  /\ areDatesOfSameDay today last = true
  /\ outcome (attempt Sample.weekBefore)
     = Throws (DailyCardPurchaseLimitExceedError "5000000000" "4995000000")
  /\ outcome (attempt (Sample.weekBefore + 86400))
     = Returns {| PurchaseResult.receipt := Sample.buyReceipt;
                  PurchaseResult.orderDetail := "order-1" |}.
Proof. intros today last attempt. repeat split; vm_compute; reflexivity. Qed.

(** ** Approval before purchase *)

(** C5.  When the attempt gets as far as reading the allowance: an
    approval is submitted exactly when the allowance is strictly below the
    converted amount; every approval submitted is the one of the USDC
    token for the card contract and exactly the converted amount; and when
    an approval is due, a buy is submitted only after the approval was
    submitted and its wait returned, the buy following the wait directly. *)
Theorem approval_only_when_allowance_short js consts w this params d p a :
  let run := purchaseCardWithUsdc js consts w this params in
  let approve := Approve (usdcToken this) (zebecCard this) p in
  w_decimals w = inr d ->
  ethers_parseUnits js
    (number_toString js (Quote.totalPrice (PurchaseParams.quote params))) d = inr p ->
  w_allowance w = inr a ->
  In (Allowance (usdcToken this) (signer this) (zebecCard this)) (trace run) ->
  ((exists token spender amount, In (Approve token spender amount) (trace run))
   <-> a < p)
  /\ (forall token spender amount,
        In (Approve token spender amount) (trace run) ->
        Approve token spender amount = approve)
  /\ (a < p ->
      forall card amount cardType emailHash overrides,
        In (BuyCardDirect card amount cardType emailHash overrides) (trace run) ->
        (exists response receipt,
            w_approve w = inr response /\ w_approveWait w = inr receipt)
        /\ exists rest,
            fromFirst isTransaction (trace run)
            = approve :: ApproveWait
                :: BuyCardDirect card amount cardType emailHash overrides :: rest).
Proof.
  intros run approve Hd Hp Ha. unfold run, trace, outcome.
  destruct (purchaseCardWithUsdc js consts w this params) as [tr out] eqn:Hrun.
  run_all w Hrun; obs; bools.
  all: intros Hin; try not_in Hin.
  all: subst approve; clear Hin.
  all: split; [split | split].
  all: try (intros (tk & sp & amt & H); first [ lia | not_in H ]).
  all: try (intros; exfalso; lia).
  all: try solve [intros _; do 3 eexists; pick].
  all: try (intros tk sp amt H; first [ not_in H | solve [cases_in H; symmetry; exact H] ]).
  all: intros _ card amt ct eh ov H.
  all: try not_in H.
  all: split; [ do 2 eexists; split; reflexivity | ].
  all: eexists; cases_in H.
  all: injection H as <- <- <- <- <-; reflexivity.
Qed.

Lemma approval_only_when_allowance_short_witness :
  let w := Sample.world (Sample.answers []) in
  let run := purchaseCardWithUsdc Sample.js Sample.consts w Sample.service
               Sample.params in
  let usdc := usdcToken Sample.service in
  let card := zebecCard Sample.service in
  (w_allowance w = inr 0
   /\ In (Allowance usdc (signer Sample.service) card) (trace run))
  /\ (exists token spender amount, In (Approve token spender amount) (trace run))
  /\ (forall token spender amount,
        In (Approve token spender amount) (trace run) ->
        Approve token spender amount = Approve usdc card 10000000)
  /\ transactions (trace run)
     = [Approve usdc card 10000000; ApproveWait;
        BuyCardDirect card 10000000 "non_reloadable" "sha256:johnchamling@gmail.com"
          (Overrides.mk (Some 3000000) "");
        BuyWait].
Proof.
  intros w run usdc card.
  assert (Hin : In (Allowance usdc (signer Sample.service) card) (trace run)).
  { vm_compute. pick. }
  split; [split; [reflexivity | exact Hin]|].
  destruct (approval_only_when_allowance_short Sample.js Sample.consts w
              Sample.service Sample.params 6 10000000 0 eq_refl eq_refl eq_refl Hin)
    as (Hiff & Hexact & _).
  split; [apply Hiff; reflexivity|]. split; [exact Hexact|].
  vm_compute. reflexivity.
Defined.

(** ** The recipient that reaches the backend *)

(** Every order submission carries the recipient of the request. *)
Lemma submitted_recipient js consts w this params data :
  In (PurchaseCard data) (trace (purchaseCardWithUsdc js consts w this params)) ->
  OrderCardRequest.recipient data = PurchaseParams.recipient params.
Proof.
  unfold trace.
  destruct (purchaseCardWithUsdc js consts w this params) as [tr out] eqn:Hrun.
  run_all w Hrun; obs; intros Hin; cases_in Hin.
  all: injection Hin as <-; reflexivity.
Qed.

(** C10.  A recipient created with [address2] left out has the string
    "N/A" as its [address2], and every order submission of a purchase made
    for that recipient carries it with this [address2]. *)
Theorem omitted_address2_is_NA
        (pid fn ln em mp lang city st pc cc a1 : string) (r : Recipient.t) :
  Recipient.create pid fn ln em mp lang city st pc cc a1 None = inr r ->
  Recipient.address2 r = "N/A"
  /\ forall js consts w this params data,
       PurchaseParams.recipient params = r ->
       In (PurchaseCard data)
          (trace (purchaseCardWithUsdc js consts w this params)) ->
       OrderCardRequest.recipient data = r
       /\ Recipient.address2 (OrderCardRequest.recipient data) = "N/A".
Proof.
  intros Hr.
  assert (Hna : Recipient.address2 r = "N/A").
  { destruct (create_cases pid fn ln em mp lang city st pc cc a1 None)
      as [[Hok _] | (msg & f & Hko & _)]; cbv zeta in *.
    - rewrite Hr in Hok. injection Hok as ->. reflexivity.
    - rewrite Hr in Hko. discriminate. }
  split; [exact Hna|].
  intros js consts w this params data Hp Hin.
  apply submitted_recipient in Hin. rewrite Hp in Hin. rewrite Hin.
  split; [reflexivity | exact Hna].
Qed.

Lemma omitted_address2_is_NA_witness :
  let run := purchaseCardWithUsdc Sample.js Sample.consts
               (Sample.world (Sample.answers [])) Sample.service Sample.params in
  Recipient.create "JohnChamling" "John" "Chamling" "johnchamling@gmail.com"
    "9876543210" "en-US" "Bharatpur" "Bagmati" "44200" "NPL"
    "Shittal street, Bharatpur - 10, Chitwan" None = inr Sample.recipient
  /\ Recipient.address2 Sample.recipient = "N/A"
  /\ exists data,
      submissions (trace run) = [PurchaseCard data]
      /\ Recipient.address2 (OrderCardRequest.recipient data) = "N/A".
Proof.
  intros run.
  destruct (omitted_address2_is_NA _ _ _ _ _ _ _ _ _ _ _ _ sample_recipient_created)
    as [Hna Hfwd].
  split; [exact sample_recipient_created|]. split; [exact Hna|].
  eexists. split; [vm_compute; reflexivity|].
  apply (Hfwd Sample.js Sample.consts (Sample.world (Sample.answers []))
              Sample.service Sample.params); [reflexivity|].
  vm_compute. pick.
Defined.

(* ===================================================================== *)
(** * Further properties                                                  *)
(* ===================================================================== *)

(** ** Strings and patterns *)

Lemma str_app_nil_r (s : string) : s ++ "" = s.
Proof. induction s as [|c s IH]; simpl; [reflexivity | now rewrite IH]. Qed.

Lemma str_app_assoc (a b c : string) : (a ++ b) ++ c = a ++ b ++ c.
Proof. induction a as [|x a IH]; simpl; [reflexivity | now rewrite IH]. Qed.

Lemma str_app_length (a b : string) :
  String.length (a ++ b) = (String.length a + String.length b)%nat.
Proof. induction a as [|x a IH]; simpl; [reflexivity | now rewrite IH]. Qed.

Lemma str_app_eq_nil (a b : string) : a ++ b = "" -> a = "" /\ b = "".
Proof. destruct a; simpl; intros H; [now split | discriminate]. Qed.

Lemma str_split_at (n : nat) (s : string) :
  (n <= String.length s)%nat ->
  exists u v, s = u ++ v /\ String.length u = n.
Proof.
  revert s. induction n as [|n IH]; intros s Hn.
  - exists "", s. now split.
  - destruct s as [|c s]; simpl in Hn; [lia|].
    destruct (IH s) as (u & v & -> & Hu); [lia|].
    exists (String c u), v. split; [reflexivity | simpl; now rewrite Hu].
Qed.

Lemma allChars_app p (a b : string) :
  allChars p (a ++ b) = allChars p a && allChars p b.
Proof.
  induction a as [|x a IH]; simpl; [reflexivity|].
  now rewrite IH, andb_assoc.
Qed.

Lemma countChar_app x (a b : string) :
  countChar x (a ++ b) = (countChar x a + countChar x b)%nat.
Proof. induction a as [|c a IH]; simpl; [reflexivity | rewrite IH; lia]. Qed.

Lemma countChar_absent p x (s : string) :
  p x = false -> allChars p s = true -> countChar x s = 0%nat.
Proof.
  intros Hx. induction s as [|c s IH]; simpl; [reflexivity|].
  intros H. apply andb_true_iff in H. destruct H as [Hc Hs].
  destruct (Ascii.eqb_spec x c) as [->|_]; [congruence|]. now rewrite IH.
Qed.

(** *** The matcher decides the denotation *)

Lemma denotes_Void w : ~ denotes Void w.
Proof. intros H. inversion H. Qed.

Lemma denotes_Eps w : denotes Eps w <-> w = "".
Proof. split; intros H; [now inversion H | subst; constructor]. Qed.

Lemma denotes_Cls p w : denotes (Cls p) w <-> exists c, w = String c "" /\ p c = true.
Proof.
  split.
  - intros H. inversion H; subst. eexists. now split.
  - intros (c & -> & Hc). now constructor.
Qed.

Lemma denotes_Cat r s w :
  denotes (Cat r s) w <-> exists u v, w = u ++ v /\ denotes r u /\ denotes s v.
Proof.
  split.
  - intros H. inversion H; subst. now exists u, v.
  - intros (u & v & -> & Hu & Hv). now constructor.
Qed.

Lemma denotes_Alt r s w : denotes (Alt r s) w <-> denotes r w \/ denotes s w.
Proof.
  split.
  - intros H. inversion H; subst; auto.
  - intros [H|H]; [now apply DAltL | now apply DAltR].
Qed.

Lemma cat_denotes r s w : denotes (cat r s) w <-> denotes (Cat r s) w.
Proof.
  rewrite denotes_Cat.
  assert (HV1 : forall x, (exists u v, w = u ++ v /\ denotes Void u /\ denotes x v) <-> False).
  { intros x. split; [|tauto]. intros (u & v & _ & H & _). now apply denotes_Void in H. }
  assert (HV2 : forall x, (exists u v, w = u ++ v /\ denotes x u /\ denotes Void v) <-> False).
  { intros x. split; [|tauto]. intros (u & v & _ & _ & H). now apply denotes_Void in H. }
  assert (HE1 : forall x, (exists u v, w = u ++ v /\ denotes Eps u /\ denotes x v) <-> denotes x w).
  { intros x. split.
    - intros (u & v & -> & Hu & Hv). apply denotes_Eps in Hu. now subst.
    - intros H. exists "", w. repeat split; [constructor | assumption]. }
  assert (HE2 : forall x, (exists u v, w = u ++ v /\ denotes x u /\ denotes Eps v) <-> denotes x w).
  { intros x. split.
    - intros (u & v & -> & Hu & Hv). apply denotes_Eps in Hv. subst.
      now rewrite str_app_nil_r.
    - intros H. exists w, "". repeat split; [now rewrite str_app_nil_r | assumption | constructor]. }
  destruct r; destruct s; cbn [cat];
    rewrite ?HV1, ?HV2, ?HE1, ?HE2, ?denotes_Cat;
    try reflexivity; try (split; [intros H; now apply denotes_Void in H | tauto]).
Qed.

Lemma alt_denotes r s w : denotes (alt r s) w <-> denotes (Alt r s) w.
Proof.
  rewrite denotes_Alt.
  destruct r; destruct s; cbn [alt]; rewrite ?denotes_Alt;
    try reflexivity;
    (split; [ intros H; tauto
            | intros [H|H]; try assumption; try now apply denotes_Void in H ]).
Qed.

Lemma nullable_denotes r : nullable r = true <-> denotes r "".
Proof.
  split.
  - induction r; cbn [nullable]; intros H; try discriminate.
    + constructor.
    + apply andb_true_iff in H. destruct H as [H1 H2].
      change "" with ("" ++ ""). constructor; auto.
    + apply orb_true_iff in H. destruct H as [H|H];
        [apply DAltL | apply DAltR]; auto.
    + constructor.
  - intros H. remember "" as w eqn:Hw. induction H; cbn [nullable]; try reflexivity.
    + discriminate.
    + apply str_app_eq_nil in Hw. destruct Hw as [-> ->].
      rewrite IHdenotes1, IHdenotes2; reflexivity.
    + rewrite IHdenotes; auto.
    + rewrite IHdenotes; auto. apply orb_true_r.
Qed.

Lemma star_cons r c w :
  denotes (Star r) (String c w) ->
  exists u v, w = u ++ v /\ denotes r (String c u) /\ denotes (Star r) v.
Proof.
  intros H. remember (Star r) as sr eqn:Hs. remember (String c w) as cw eqn:Hc.
  revert w Hc. induction H; intros w Hc; try discriminate.
  injection Hs as ->.
  destruct u as [|x u]; simpl in Hc.
  - apply IHdenotes2; auto.
  - injection Hc as -> <-. exists u, v. repeat split; assumption.
Qed.

Lemma deriv_denotes c r : forall w, denotes (deriv c r) w <-> denotes r (String c w).
Proof.
  induction r as [| |p|r IHr s IHs|r IHr s IHs|r IHr]; intros w; cbn [deriv].
  - split; intros H; inversion H.
  - split; intros H; inversion H.
  - rewrite denotes_Cls. destruct (p c) eqn:Hp.
    + rewrite denotes_Eps. split.
      * intros ->. exists c. now split.
      * intros (x & [= -> ->] & _). reflexivity.
    + split; [intros H; inversion H|]. intros (x & [= -> ->] & Hx). congruence.
  - assert (Hcat : denotes (Cat (deriv c r) s) w <->
                   exists u v, w = u ++ v /\ denotes r (String c u) /\ denotes s v).
    { rewrite denotes_Cat. split; intros (u & v & E & Hu & Hv); exists u, v;
        (repeat split; [assumption | now apply IHr | assumption]). }
    rewrite (denotes_Cat r s).
    destruct (nullable r) eqn:Hn.
    + rewrite alt_denotes, denotes_Alt, cat_denotes, Hcat, IHs. split.
      * intros [(u & v & -> & Hu & Hv) | H].
        -- exists (String c u), v. now repeat split.
        -- exists "", (String c w). repeat split; [|assumption].
           now apply nullable_denotes.
      * intros (u & v & E & Hu & Hv). destruct u as [|x u]; simpl in E.
        -- right. now subst.
        -- injection E as <- ->. left. now exists u, v.
    + rewrite cat_denotes, Hcat. split.
      * intros (u & v & -> & Hu & Hv). exists (String c u), v. now repeat split.
      * intros (u & v & E & Hu & Hv). destruct u as [|x u]; simpl in E.
        -- apply nullable_denotes in Hu. congruence.
        -- injection E as <- ->. now exists u, v.
  - rewrite alt_denotes, !denotes_Alt, IHr, IHs. reflexivity.
  - rewrite cat_denotes, denotes_Cat. split.
    + intros (u & v & -> & Hu & Hv). apply IHr in Hu.
      change (String c (u ++ v)) with (String c u ++ v). now constructor.
    + intros H. apply star_cons in H. destruct H as (u & v & -> & Hu & Hv).
      exists u, v. repeat split; [now apply IHr | assumption].
Qed.

Lemma test_denotes r s : test r s = true <-> denotes r s.
Proof.
  revert r. induction s as [|c s IH]; intros r; cbn [test].
  - apply nullable_denotes.
  - rewrite IH. apply deriv_denotes.
Qed.

Lemma denotes_star_cls p w : denotes (Star (Cls p)) w <-> allChars p w = true.
Proof.
  split.
  - intros H. remember (Star (Cls p)) as sr eqn:Hs.
    induction H; try discriminate; [reflexivity|].
    injection Hs as ->. apply denotes_Cls in H. destruct H as (c & -> & Hc).
    cbn. rewrite Hc. now apply IHdenotes2.
  - induction w as [|c w IH]; cbn [allChars]; intros H.
    + constructor.
    + apply andb_true_iff in H. destruct H as [Hc Hw].
      change (String c w) with (String c "" ++ w).
      constructor; [now constructor | now apply IH].
Qed.

Lemma denotes_plus_cls p w :
  denotes (plus (Cls p)) w <-> w <> "" /\ allChars p w = true.
Proof.
  unfold plus. rewrite denotes_Cat. split.
  - intros (u & v & -> & Hu & Hv). apply denotes_Cls in Hu.
    destruct Hu as (c & -> & Hc). apply denotes_star_cls in Hv.
    split; [discriminate|]. cbn. now rewrite Hc.
  - intros [Hne Hall]. destruct w as [|c w]; [congruence|].
    cbn in Hall. apply andb_true_iff in Hall. destruct Hall as [Hc Hw].
    exists (String c ""), w. repeat split;
      [now constructor | now apply denotes_star_cls].
Qed.

Lemma denotes_exactly_cls p n w :
  denotes (exactly n (Cls p)) w <-> String.length w = n /\ allChars p w = true.
Proof.
  revert w. induction n as [|n IH]; intros w; cbn [exactly].
  - rewrite denotes_Eps. split.
    + intros ->. now split.
    + intros [H _]. now destruct w.
  - rewrite denotes_Cat. split.
    + intros (u & v & -> & Hu & Hv). apply denotes_Cls in Hu.
      destruct Hu as (c & -> & Hc). apply IH in Hv. destruct Hv as [Hl Ha].
      cbn. rewrite Hc, Hl. now split.
    + intros [Hl Ha]. destruct w as [|c w]; [discriminate|].
      cbn in Hl, Ha. apply andb_true_iff in Ha. destruct Ha as [Hc Hw].
      exists (String c ""), w. repeat split; [now constructor|].
      apply IH. split; [lia | assumption].
Qed.

Lemma denotes_upto_cls p n w :
  denotes (upto n (Cls p)) w <-> (String.length w <= n)%nat /\ allChars p w = true.
Proof.
  revert w. induction n as [|n IH]; intros w; cbn [upto].
  - rewrite denotes_Eps. split.
    + intros ->. split; [apply Nat.le_refl | reflexivity].
    + intros [H _]. destruct w; [reflexivity | cbn in H; lia].
  - rewrite denotes_Alt, denotes_Eps, denotes_Cat. split.
    + intros [-> | (u & v & -> & Hu & Hv)].
      * split; [cbn; lia | reflexivity].
      * apply denotes_Cls in Hu. destruct Hu as (c & -> & Hc).
        apply IH in Hv. destruct Hv as [Hl Ha]. cbn. rewrite Hc. split; [lia | assumption].
    + intros [Hl Ha]. destruct w as [|c w]; [now left|]. right.
      cbn in Hl, Ha. apply andb_true_iff in Ha. destruct Ha as [Hc Hw].
      exists (String c ""), w. repeat split; [now constructor|].
      apply IH. split; [lia | assumption].
Qed.

Lemma denotes_between_cls p lo hi w :
  (lo <= hi)%nat ->
  denotes (between lo hi (Cls p)) w
  <-> (lo <= String.length w <= hi)%nat /\ allChars p w = true.
Proof.
  intros Hle. unfold between. rewrite denotes_Cat. split.
  - intros (u & v & -> & Hu & Hv).
    apply denotes_exactly_cls in Hu. apply denotes_upto_cls in Hv.
    destruct Hu as [Hu1 Hu2], Hv as [Hv1 Hv2].
    rewrite str_app_length, allChars_app, Hu2, Hv2. split; [lia | reflexivity].
  - intros [Hl Ha]. destruct (str_split_at lo w) as (u & v & -> & Hu); [lia|].
    rewrite str_app_length in Hl. rewrite allChars_app in Ha.
    apply andb_true_iff in Ha. destruct Ha as [Ha1 Ha2].
    exists u, v. repeat split.
    + apply denotes_exactly_cls. now split.
    + apply denotes_upto_cls. split; [lia | assumption].
Qed.

Lemma denotes_chr x w : denotes (Cls (chr x)) w <-> w = String x "".
Proof.
  rewrite denotes_Cls. unfold chr. split.
  - intros (c & -> & Hc). apply Ascii.eqb_eq in Hc. now subst.
  - intros ->. exists x. split; [reflexivity | apply Ascii.eqb_refl].
Qed.

(** X1.  [isAlphaNumeric] accepts exactly the non-empty strings made of
    ASCII letters and digits only; the empty string is rejected. *)
Theorem isAlphaNumeric_iff (value : string) :
  isAlphaNumeric value = true <-> value <> "" /\ allChars cls_alnum value = true.
Proof. unfold isAlphaNumeric. rewrite test_denotes. apply denotes_plus_cls. Qed.

Lemma email_decomposition (value : string) :
  isEmailValid value = true
  <-> exists loc domain tld,
        value = loc ++ "@" ++ domain ++ "." ++ tld
        /\ loc <> "" /\ allChars cls_local loc = true
        /\ domain <> "" /\ allChars cls_domain domain = true
        /\ (2 <= String.length tld <= 10)%nat /\ allChars cls_alpha tld = true.
Proof.
  unfold isEmailValid, email_re. rewrite test_denotes. split.
  - intros H.
    apply denotes_Cat in H. destruct H as (loc & r1 & -> & Hloc & H).
    apply denotes_Cat in H. destruct H as (at_ & r2 & -> & Hat & H).
    apply denotes_Cat in H. destruct H as (dom & r3 & -> & Hdom & H).
    apply denotes_Cat in H. destruct H as (dot & tld & -> & Hdot & Htld).
    apply denotes_plus_cls in Hloc. apply denotes_plus_cls in Hdom.
    apply denotes_chr in Hat. apply denotes_chr in Hdot. subst.
    apply denotes_between_cls in Htld; [|lia].
    exists loc, dom, tld. cbn [append]. tauto.
  - intros (loc & dom & tld & -> & Hl1 & Hl2 & Hd1 & Hd2 & Ht1 & Ht2).
    constructor; [now apply denotes_plus_cls|].
    change ("@" ++ dom ++ "." ++ tld) with (String "@" "" ++ dom ++ String "." "" ++ tld).
    constructor; [now apply denotes_chr|].
    constructor; [now apply denotes_plus_cls|].
    constructor; [now apply denotes_chr|].
    apply denotes_between_cls; [lia | now split].
Qed.

(** X2.  [isEmailValid] accepts exactly the strings of the form
    local@domain.tld with a non-empty local part over letters, digits and
    [._+-], a non-empty domain over letters, digits and [.-], and a last
    label of 2 to 10 letters. *)
Theorem isEmailValid_iff (value : string) :
  isEmailValid value = true
  <-> exists loc domain tld,
        value = loc ++ "@" ++ domain ++ "." ++ tld
        /\ loc <> "" /\ allChars cls_local loc = true
        /\ domain <> "" /\ allChars cls_domain domain = true
        /\ (2 <= String.length tld <= 10)%nat /\ allChars cls_alpha tld = true.
Proof. exact (email_decomposition value). Qed.

Lemma allChars_weaken (p q : ascii -> bool) (s : string) :
  (forall c, p c = true -> q c = true) -> allChars p s = true -> allChars q s = true.
Proof.
  intros Hpq. induction s as [|c s IH]; cbn [allChars]; [reflexivity|].
  intros H. apply andb_true_iff in H. destruct H as [Hc Hs].
  rewrite (Hpq c Hc). now apply IH.
Qed.

(** X3.  An accepted e-mail address has exactly one "@", at least six
    characters, and no character other than ASCII letters, digits and
    [._+-@]. *)
Theorem valid_email_shape (value : string) :
  isEmailValid value = true ->
  countChar "@" value = 1%nat
  /\ (6 <= String.length value)%nat
  /\ allChars emailChar value = true.
Proof.
  intros H. apply email_decomposition in H.
  destruct H as (loc & dom & tld & -> & Hl1 & Hl2 & Hd1 & Hd2 & Ht1 & Ht2).
  assert (Hdl : forall c, cls_domain c = true -> emailChar c = true).
  { intros c. unfold cls_domain, emailChar, cls_local.
    rewrite !orb_true_iff. tauto. }
  assert (Hal : forall c, cls_alpha c = true -> emailChar c = true).
  { intros c. unfold cls_alpha, emailChar, cls_local.
    rewrite !orb_true_iff. tauto. }
  assert (Hll : forall c, cls_local c = true -> emailChar c = true).
  { intros c. unfold emailChar. rewrite orb_true_iff. tauto. }
  repeat split.
  - rewrite countChar_app. cbn [append countChar]. rewrite countChar_app.
    cbn [append countChar].
    rewrite (countChar_absent cls_local "@" loc eq_refl Hl2).
    rewrite (countChar_absent cls_domain "@" dom eq_refl Hd2).
    rewrite (countChar_absent cls_alpha "@" tld eq_refl Ht2).
    reflexivity.
  - rewrite str_app_length. cbn [append String.length].
    rewrite str_app_length. cbn [append String.length].
    destruct loc; [congruence|]. destruct dom; [congruence|]. cbn. lia.
  - rewrite allChars_app. cbn [append allChars]. rewrite allChars_app.
    cbn [append allChars].
    rewrite (allChars_weaken _ _ _ Hll Hl2), (allChars_weaken _ _ _ Hdl Hd2),
      (allChars_weaken _ _ _ Hal Ht2).
    reflexivity.
Qed.

Lemma DateFromTime_shift (t : Z) :
  JsDate.DateFromTime t
  = JsDate.DayWithinYear t - monthShift (JsDate.MonthFromTime t) (JsDate.InLeapYear t).
Proof.
  unfold JsDate.DateFromTime, monthShift.
  generalize (JsDate.MonthFromTime t) as m. intros m.
  repeat match goal with
         | |- context [match ?x with _ => _ end] => destruct x
         end; lia.
Qed.

Lemma Day_decomposition (t : Z) :
  JsDate.Day t
  = JsDate.DayFromYear (JsDate.YearFromTime t)
    + monthShift (JsDate.MonthFromTime t) (JsDate.InLeapYear t)
    + JsDate.DateFromTime t.
Proof. rewrite DateFromTime_shift. unfold JsDate.DayWithinYear. lia. Qed.

(** X4.  [areDatesOfSameDay] answers [true] exactly for two valid dates of
    the same UTC year and month whose days of the month differ by a
    multiple of seven (0, 7, 14, 21 or 28 days apart); an invalid date is
    the same day as nothing, itself included. *)
Theorem areDatesOfSameDay_iff (date1 date2 : JsDate.Date) :
  areDatesOfSameDay date1 date2 = true
  <-> exists t1 t2,
        date1 = Some t1 /\ date2 = Some t2
        /\ JsDate.YearFromTime t1 = JsDate.YearFromTime t2
        /\ JsDate.MonthFromTime t1 = JsDate.MonthFromTime t2
        /\ (JsDate.DateFromTime t1 - JsDate.DateFromTime t2) mod 7 = 0.
Proof.
  unfold areDatesOfSameDay, JsDate.getUTCDay, JsDate.getUTCMonth,
    JsDate.getUTCFullYear, JsDate.strictEq.
  destruct date1 as [t1|], date2 as [t2|]; cbn [option_map];
    try (split; [discriminate | intros (a & b & H1 & H2 & _); discriminate]).
  rewrite !andb_true_iff, !Z.eqb_eq.
  assert (Hkey : JsDate.YearFromTime t1 = JsDate.YearFromTime t2 ->
                 JsDate.MonthFromTime t1 = JsDate.MonthFromTime t2 ->
                 (JsDate.WeekDay t1 = JsDate.WeekDay t2
                  <-> (JsDate.DateFromTime t1 - JsDate.DateFromTime t2) mod 7 = 0)).
  { intros Hy Hm. unfold JsDate.WeekDay.
    rewrite (Day_decomposition t1), (Day_decomposition t2).
    unfold JsDate.InLeapYear. rewrite Hy, Hm.
    Z.div_mod_to_equations. lia. }
  split.
  - intros [[Hw Hm] Hy]. exists t1, t2. repeat split; try assumption.
    now apply Hkey.
  - intros (a & b & [= <-] & [= <-] & Hy & Hm & Hd). repeat split; try assumption.
    now apply Hkey.
Qed.


Lemma value_of_parse (n : Z) (c : SupportedEvmChain) :
  parseSupportedChain n = inr c -> chainValue c = n.
Proof.
  unfold parseSupportedChain.
  repeat match goal with
         | |- context [if ?n =? ?k then _ else _] =>
             destruct (Z.eqb_spec n k); [intros [= <-]; cbn; congruence|]
         end.
  discriminate.
Qed.




(** X7.  [hasLen] holds exactly when the string has at least [min]
    characters and, for a maximum that is given and not zero, at most
    [max]; a maximum of 0 bounds nothing, like one left out. *)
Theorem hasLen_iff (value : string) (min : Z) (max : option Z) :
  hasLen value min max = true
  <-> min <= strlen value
      /\ (forall m, max = Some m -> m <> 0 -> strlen value <= m).
Proof.
  unfold hasLen, hasMinLen, hasMaxLen.
  destruct max as [m|].
  - destruct (Z.eqb_spec m 0) as [->|Hm].
    + rewrite Z.leb_le. split; [intros H; split; [exact H|]|tauto].
      intros m [= <-] Hm. congruence.
    + rewrite andb_true_iff, !Z.leb_le. split.
      * intros [H1 H2]. split; [exact H1|]. now intros m' [= <-] _.
      * intros [H1 H2]. split; [exact H1 | now apply H2].
  - rewrite Z.leb_le. split; [intros H; split; [exact H | discriminate]|tauto].
Qed.

(** X8.  A service that the constructor returns is in sandbox mode exactly
    when its chain is a testnet; its API service has the same mode, the
    sandbox URL on a testnet and the production URL otherwise, and the
    caller's keys; its two contracts are the card and USDC addresses of
    its chain, connected to the caller's signer. *)
Theorem constructed_service_invariant
        (consts : Constants) (signer : Signer) (chainId : Z)
        (apiConfig : APIConfig.t) (sdkOptions : option SdkOptions.t)
        (svc : ZebecCardEvmService.t) :
  ZebecCardEvmService.constructor consts signer chainId apiConfig sdkOptions = inr svc ->
  let chain := ZebecCardEvmService.chainId svc in
  let api := ZebecCardEvmService.apiService svc in
  ZebecCardEvmService.sandbox svc = includes TESTNET_CHAINIDS (chainValue chain)
  /\ ZebecCardAPIService.sandbox api = ZebecCardEvmService.sandbox svc
  /\ ZebecCardAPIService.apiUrl api
     = (if includes TESTNET_CHAINIDS (chainValue chain)
        then CARD_API_URL_Sandbox consts else CARD_API_URL_Production consts)
  /\ ZebecCardAPIService.apiKey api = APIConfig.apiKey apiConfig
  /\ ZebecCardAPIService.encryptionKey api = APIConfig.encryptionKey apiConfig
  /\ ZebecCardEvmService.signer svc = signer
  /\ ZebecCardEvmService.zebecCard svc
     = Contract.mk (ZEBEC_CARD_ADDRESS consts chain) signer
  /\ ZebecCardEvmService.usdcToken svc
     = Contract.mk (USDC_ADDRESS consts chain) signer.
Proof.
  unfold ZebecCardEvmService.constructor.
  fold (sandboxFlag sdkOptions).
  destruct (sandboxFlag sdkOptions) eqn:Hflag;
    destruct (includes TESTNET_CHAINIDS chainId) eqn:Htest; cbn [andb orb negb];
    try discriminate;
    destruct (parseSupportedChain chainId) as [e|c] eqn:Hparse; try discriminate;
    intros [= <-];
    cbn [ZebecCardEvmService.chainId ZebecCardEvmService.sandbox
         ZebecCardEvmService.apiService ZebecCardEvmService.signer
         ZebecCardEvmService.zebecCard ZebecCardEvmService.usdcToken
         ZebecCardAPIService.constructor ZebecCardAPIService.sandbox
         ZebecCardAPIService.apiUrl ZebecCardAPIService.apiKey
         ZebecCardAPIService.encryptionKey Contract.connect];
    apply value_of_parse in Hparse; rewrite Hparse, Htest;
    repeat split.
Qed.



(** X10.  Creating a recipient again from the fields of a created
    recipient, its address line 2 included, gives the same recipient:
    what [Recipient.create] returns always passes [Recipient.create]. *)
Theorem recipient_create_roundtrip
        (pid fn ln em mp lang city st pc cc a1 : string) (a2 : option string)
        (r : Recipient.t) :
  Recipient.create pid fn ln em mp lang city st pc cc a1 a2 = inr r ->
  Recipient.create (Recipient.participantId r) (Recipient.firstName r)
    (Recipient.lastName r) (Recipient.emailAddress r) (Recipient.mobilePhone r)
    (Recipient.language r) (Recipient.city r) (Recipient.state r)
    (Recipient.postalCode r) (Recipient.countryCode r) (Recipient.address1 r)
    (Some (Recipient.address2 r)) = inr r.
Proof.
  intros Hr.
  destruct (create_cases pid fn ln em mp lang city st pc cc a1 a2)
    as [[Hok Hall] | (msg & f & Hko & _)]; cbv zeta in *; [|congruence].
  rewrite Hr in Hok. injection Hok as ->.
  unfold builtRecipient, Recipient.new.
  cbn [Recipient.participantId Recipient.firstName Recipient.lastName
       Recipient.emailAddress Recipient.mobilePhone Recipient.language
       Recipient.city Recipient.state Recipient.postalCode Recipient.countryCode
       Recipient.address1 Recipient.address2].
  set (x := match a2 with Some a => a | None => "N/A" end).
  destruct (create_cases pid fn ln em mp lang city st pc cc a1 (Some x))
    as [[Hok' _] | (msg & f & Hko & _ & Hn)]; cbv zeta in *.
  - rewrite Hok'. reflexivity.
  - exfalso. apply Hn. pose proof (Hall f) as Hf.
    destruct f; cbn [enforcedConstraint] in *; try exact Hf.
    intros y [= <-]. subst x. destruct a2 as [a|]; [now apply Hf | cbn; lia].
Qed.

(** X11.  A purchase attempt made for a recipient that
    [Recipient.create] returned never throws [InvalidEmailError]: the
    e-mail test of the attempt repeats a test the recipient has passed. *)
Theorem created_recipient_passes_email_check
        (pid fn ln em mp lang city st pc cc a1 : string) (a2 : option string)
        (r : Recipient.t) :
  Recipient.create pid fn ln em mp lang city st pc cc a1 a2 = inr r ->
  forall js consts w this params,
    PurchaseParams.recipient params = r ->
    forall email,
      outcome (purchaseCardWithUsdc js consts w this params)
      <> Throws (InvalidEmailError email).
Proof.
  intros Hr js consts w this params Hp email.
  assert (Hvalid : isEmailValid (Recipient.emailAddress
                                   (PurchaseParams.recipient params)) = true).
  { destruct (create_cases pid fn ln em mp lang city st pc cc a1 a2)
      as [[Hok Hall] | (msg & f & Hko & _)]; cbv zeta in *; [|congruence].
    rewrite Hr in Hok. injection Hok as ->. rewrite Hp.
    exact (proj2 (Hall FEmailAddress)). }
  clear Hr Hp. unfold outcome.
  destruct (purchaseCardWithUsdc js consts w this params) as [tr out] eqn:Hrun.
  run_all w Hrun; bools; first [ discriminate | congruence ].
Qed.

Lemma existsb_eqb_In (x : string) (l : list string) :
  existsb (fun c => String.eqb c x) l = true -> In x l.
Proof.
  intros H. apply existsb_exists in H. destruct H as [c [Hin Hc]].
  apply String.eqb_eq in Hc. now subst.
Qed.

(** X12.  If an attempt submits any transaction (approval or buy), then
    every check before it has passed: the backend answered, the program is
    in the catalog, the e-mail, token and amount tests hold, the quote is
    within its margin, its currency is one of the program's, the balance
    covers the amount, the amount lies within the card's bounds, the day's
    total is within the daily limit, and the allowance was read. *)
Theorem transaction_requires_all_checks js consts w this params :
  let run := purchaseCardWithUsdc js consts w this params in
  let quote := PurchaseParams.quote params in
  transactions (trace run) <> [] ->
  reachesQuoteExpiryCheck js w params
  /\ w_now w <= Quote.expiresIn quote - 20000
  /\ exists details program d p balance cfg info allowance,
      w_programs w = inr details
      /\ find (fun q => String.eqb (CardProgram.id q)
                                   (PurchaseParams.cardProgramId params))
              (CardProgramWithUserRegion.availablePrograms details) = Some program
      /\ In (Quote.targetCurrency quote) (CardProgram.availableCurrencies program)
      /\ w_decimals w = inr d
      /\ ethers_parseUnits js (number_toString js (Quote.totalPrice quote)) d = inr p
      /\ w_balanceOf w = inr balance /\ p <= balance
      /\ w_cardConfig w = inr cfg
      /\ CardConfig.minCardAmount cfg <= p <= CardConfig.maxCardAmount cfg
      /\ w_cardPurchases w = inr info
      /\ (if areDatesOfSameDay (Some (w_today w))
               (JsDate.ofTime (CardPurchaseInfo.unixInRecord info * 1000))
          then CardPurchaseInfo.totalCardBoughtPerDay info + p else p)
         <= CardConfig.dailyCardBuyLimit cfg
      /\ w_allowance w = inr allowance.
Proof.
  intros run quote. subst quote. unfold run, trace, reachesQuoteExpiryCheck.
  destruct (purchaseCardWithUsdc js consts w this params) as [tr out] eqn:Hrun.
  run_all w Hrun; obs; try congruence.
  all: intros _; unbool.
  all: split; [ split; [eexists; reflexivity|];
                split; [do 2 eexists; split; [reflexivity | eassumption]|];
                repeat split; assumption |].
  all: split; [lia|].
  all: do 8 eexists.
  all: split; [reflexivity|]; split; [eassumption|];
       split; [now apply existsb_eqb_In|].
  all: split; [reflexivity|]; split; [eassumption|]; split; [reflexivity|].
  all: split; [lia|]; split; [reflexivity|]; split; [lia|]; split; [reflexivity|].
  all: split; [eassumption | reflexivity].
Qed.

(** X13.  When the attempt gets as far as reading the balance: an amount
    above the balance throws [NotEnoughBalanceError] with the formatted
    balance and the quote's total price, after two chain reads and
    nothing more; an amount covered by the balance never throws it. *)
Theorem balance_check js consts w this params d p balance :
  let run := purchaseCardWithUsdc js consts w this params in
  let quote := PurchaseParams.quote params in
  w_decimals w = inr d ->
  ethers_parseUnits js (number_toString js (Quote.totalPrice quote)) d = inr p ->
  w_balanceOf w = inr balance ->
  In (BalanceOf (usdcToken this) (signer this)) (trace run) ->
  (p > balance ->
   outcome run = Throws (NotEnoughBalanceError
                           (ethers_formatUnits js balance d)
                           (number_toString js (Quote.totalPrice quote)))
   /\ chainCalls (trace run)
      = [Decimals (usdcToken this); BalanceOf (usdcToken this) (signer this)])
  /\ (p <= balance ->
      forall a b, outcome run <> Throws (NotEnoughBalanceError a b)).
Proof.
  intros run quote Hd Hp Hb. subst quote. unfold run, trace, outcome.
  destruct (purchaseCardWithUsdc js consts w this params) as [tr out] eqn:Hrun.
  run_all w Hrun; obs; bools.
  all: intros Hin; try not_in Hin.
  all: split; [ intros; first [ repeat split; reflexivity | lia ]
              | intros; first [ discriminate | lia ] ].
Qed.

(** X15.  Whatever the collaborators answer, one attempt submits at most
    one approval, at most one buy and at most five order submissions, and
    from the first submission on it makes no chain call: retries resend
    the report, never the transaction. *)
Theorem attempt_is_bounded js consts w this params :
  let tr := trace (purchaseCardWithUsdc js consts w this params) in
  (List.length (filter isApprove tr) <= 1)%nat
  /\ (List.length (filter isBuy tr) <= 1)%nat
  /\ (List.length (submissions tr) <= 5)%nat
  /\ chainCalls (fromFirst isReporting tr) = [].
Proof.
  intros tr. subst tr. unfold trace.
  destruct (purchaseCardWithUsdc js consts w this params) as [tr out] eqn:Hrun.
  run_all w Hrun; obs_all.
  all: repeat split; first [ lia | reflexivity ].
Qed.

(** X16.  When the wait for the buy transaction yields no receipt, the
    attempt throws "Could not get tx receipt for tx: <hash>" with the
    hash of the transaction response, and stops there: nothing is
    submitted to the backend. *)
Theorem missing_buy_receipt js consts w this params response :
  let run := purchaseCardWithUsdc js consts w this params in
  w_buyCardDirect w = inr response ->
  w_buyWait w = inr None ->
  In BuyWait (trace run) ->
  outcome run = Throws (PlainError ("Could not get tx receipt for tx: "
                                    ++ TransactionResponse.hash response))
  /\ fromFirst (fun e => match e with BuyWait => true | _ => false end) (trace run)
     = [BuyWait].
Proof.
  intros run Hb Hw. unfold run, trace, outcome.
  destruct (purchaseCardWithUsdc js consts w this params) as [tr out] eqn:Hrun.
  run_all w Hrun; obs.
  all: intros Hin; try not_in Hin.
  all: split; reflexivity.
Qed.

(** X17.  Every order submission carries the same payload, built from the
    request and the buy receipt: the quote's output amount in its target
    currency, the program id and recipient of the request, the quote
    itself, and a deposit with the service's chain id, the token "USDC",
    the quote's total price, the receipt's hash as both signature and
    transaction hash, its block hash, the signer's address, the
    recipient's e-mail and an empty payment id. *)
Theorem submitted_payload js consts w this params data :
  let quote := PurchaseParams.quote params in
  let recipient := PurchaseParams.recipient params in
  In (PurchaseCard data) (trace (purchaseCardWithUsdc js consts w this params)) ->
  exists buyCardReceipt buyer,
    w_buyWait w = inr (Some buyCardReceipt)
    /\ w_getAddress w = inr buyer
    /\ data =
       OrderCardRequest.new
         (Money.create (Quote.outputAmount quote) (Quote.targetCurrency quote))
         (PurchaseParams.cardProgramId params) recipient
         (Receipt.mk quote
            (Deposit.mk (chainValue (chainId this)) "USDC" (Quote.totalPrice quote)
               (TransactionReceipt.hash buyCardReceipt)
               (TransactionReceipt.hash buyCardReceipt)
               (TransactionReceipt.blockHash buyCardReceipt)
               buyer (Recipient.emailAddress recipient) "")).
Proof.
  intros quote recipient. subst quote recipient. unfold trace.
  destruct (purchaseCardWithUsdc js consts w this params) as [tr out] eqn:Hrun.
  run_all w Hrun; obs; intros Hin; cases_in Hin.
  all: injection Hin as <-; do 2 eexists; repeat split; reflexivity.
Qed.

(** X18.  When the attempt gets to report, the first [n] submissions fail
    ([n] from 0 to 4) and the next one succeeds, the reporting step is
    [n] times submit-and-pause, the pauses 1000 ms doubled each time,
    followed by one more submission; the attempt returns the buy receipt
    with the order detail of that last reply. *)
Theorem retry_law js consts w this params (n : nat) d :
  let run := purchaseCardWithUsdc js consts w this params in
  submissions (trace run) <> [] ->
  (n < 5)%nat ->
  (forall i, (i < n)%nat -> exists e, w_purchaseCard w i = inl e) ->
  w_purchaseCard w n = inr d ->
  exists payload buyCardReceipt,
    w_buyWait w = inr (Some buyCardReceipt)
    /\ fromFirst isReporting (trace run) = (backoff payload n ++ [PurchaseCard payload])%list
    /\ outcome run = Returns {| PurchaseResult.receipt := buyCardReceipt;
                                PurchaseResult.orderDetail := d |}.
Proof.
  intros run Hsub Hn Hfail Hok. unfold run, trace, outcome in *. clear run.
  destruct (purchaseCardWithUsdc js consts w this params) as [tr out] eqn:Hrun.
  destruct n as [|[|[|[|[|n]]]]]; try lia; clear Hn.
  - run_all w Hrun; obs; try congruence.
    all: do 2 eexists; repeat split; reflexivity.
  - destruct (Hfail 0%nat) as [e0 H0]; [lia|]. clear Hfail.
    run_all w Hrun; obs; try congruence.
    all: do 2 eexists; repeat split; reflexivity.
  - destruct (Hfail 0%nat) as [e0 H0]; [lia|].
    destruct (Hfail 1%nat) as [e1 H1]; [lia|]. clear Hfail.
    run_all w Hrun; obs; try congruence.
    all: do 2 eexists; repeat split; reflexivity.
  - destruct (Hfail 0%nat) as [e0 H0]; [lia|].
    destruct (Hfail 1%nat) as [e1 H1]; [lia|].
    destruct (Hfail 2%nat) as [e2 H2]; [lia|]. clear Hfail.
    run_all w Hrun; obs; try congruence.
    all: do 2 eexists; repeat split; reflexivity.
  - destruct (Hfail 0%nat) as [e0 H0]; [lia|].
    destruct (Hfail 1%nat) as [e1 H1]; [lia|].
    destruct (Hfail 2%nat) as [e2 H2]; [lia|].
    destruct (Hfail 3%nat) as [e3 H3]; [lia|]. clear Hfail.
    run_all w Hrun; obs; try congruence.
    all: do 2 eexists; repeat split; reflexivity.
Qed.

(** X19.  An attempt returns only when the backend has acknowledged the
    order: the order detail returned is the reply to a submission among
    the first five, all earlier submissions failed, the receipt returned
    is the one the wait for the buy gave, and exactly one buy was
    submitted. *)
Theorem return_means_acknowledged js consts w this params r :
  let run := purchaseCardWithUsdc js consts w this params in
  outcome run = Returns r ->
  exists n buyCardReceipt payload,
    (n < 5)%nat
    /\ (forall i, (i < n)%nat -> exists e, w_purchaseCard w i = inl e)
    /\ w_purchaseCard w n = inr (PurchaseResult.orderDetail r)
    /\ w_buyWait w = inr (Some buyCardReceipt)
    /\ PurchaseResult.receipt r = buyCardReceipt
    /\ fromFirst isReporting (trace run)
       = (backoff payload n ++ [PurchaseCard payload])%list
    /\ List.length (filter isBuy (trace run)) = 1%nat.
Proof.
  intros run. unfold run, trace, outcome. clear run.
  destruct (purchaseCardWithUsdc js consts w this params) as [tr out] eqn:Hrun.
  run_all w Hrun; obs_all; try discriminate.
  all: intros [= <-].
  all: first
    [ exists 0%nat; do 2 eexists; split; [lia|]; split; [intros i Hi; lia|];
      repeat split; solve [eassumption | reflexivity]
    | exists 1%nat; do 2 eexists; split; [lia|];
      split; [intros i Hi; destruct i as [|i]; [eexists; eassumption | lia]|];
      repeat split; solve [eassumption | reflexivity]
    | exists 2%nat; do 2 eexists; split; [lia|];
      split; [intros i Hi; destruct i as [|[|i]]; try lia; eexists; eassumption|];
      repeat split; solve [eassumption | reflexivity]
    | exists 3%nat; do 2 eexists; split; [lia|];
      split; [intros i Hi; destruct i as [|[|[|i]]]; try lia; eexists; eassumption|];
      repeat split; solve [eassumption | reflexivity]
    | exists 4%nat; do 2 eexists; split; [lia|];
      split; [intros i Hi; destruct i as [|[|[|[|i]]]]; try lia; eexists; eassumption|];
      repeat split; solve [eassumption | reflexivity] ].
Qed.

(** X20.  A failed ping stops the attempt at once with the fixed error
    "Card service is down. Please try again later.", whatever made it
    fail.  Any other error of a collaborator that the attempt throws is
    the error of the program lookup, of a chain read, of the amount
    conversion, of a transaction or its wait, or of the signer, unchanged;
    an error of an order submission is never what the attempt throws. *)
Theorem remote_errors_surface_unchanged js consts w this params :
  let run := purchaseCardWithUsdc js consts w this params in
  let price := number_toString js (Quote.totalPrice (PurchaseParams.quote params)) in
  (forall e, w_ping w = inl e ->
     run = ([Ping], Throws (PlainError "Card service is down. Please try again later.")))
  /\ (forall e, outcome run = Throws (Remote e) ->
        w_programs w = inl e
        \/ w_decimals w = inl e
        \/ (exists d, w_decimals w = inr d /\ ethers_parseUnits js price d = inl e)
        \/ w_balanceOf w = inl e
        \/ w_cardConfig w = inl e
        \/ w_cardPurchases w = inl e
        \/ w_allowance w = inl e
        \/ w_approve w = inl e
        \/ w_approveWait w = inl e
        \/ w_buyCardDirect w = inl e
        \/ w_buyWait w = inl e
        \/ w_getAddress w = inl e).
Proof.
  intros run price. subst price. split.
  - intros e H. unfold run, purchaseCardWithUsdc, ZebecCardAPIService.ping,
      bind, try_, call. rewrite H. reflexivity.
  - unfold run, outcome. clear run.
    destruct (purchaseCardWithUsdc js consts w this params) as [tr out] eqn:Hrun.
    run_all w Hrun; intros e; try discriminate.
    all: intros [= <-].
    all: repeat first
      [ left; solve [ reflexivity | eexists; split; [reflexivity | eassumption] ]
      | right ];
      reflexivity.
Qed.

(** X21.  A buy is always called on the card contract of the service with
    the converted total price of the quote, "reloadable" for a carbon
    program and "non_reloadable" for a silver one, the SHA-256 of the
    recipient's e-mail, and the caller's gas limit when one is given and
    is not zero, the default gas limit otherwise. *)
Theorem buy_call_arguments js consts w this params card amount cardType emailHash
        overrides :
  let run := purchaseCardWithUsdc js consts w this params in
  let quote := PurchaseParams.quote params in
  In (BuyCardDirect card amount cardType emailHash overrides) (trace run) ->
  card = zebecCard this
  /\ (exists d, w_decimals w = inr d
                /\ ethers_parseUnits js (number_toString js (Quote.totalPrice quote)) d
                   = inr amount)
  /\ (exists details program,
        w_programs w = inr details
        /\ find (fun q => String.eqb (CardProgram.id q)
                                     (PurchaseParams.cardProgramId params))
                (CardProgramWithUserRegion.availablePrograms details) = Some program
        /\ (CardProgram.type program = carbon -> cardType = "reloadable")
        /\ (CardProgram.type program = silver -> cardType = "non_reloadable"))
  /\ emailHash = hashSHA256 js (Recipient.emailAddress (PurchaseParams.recipient params))
  /\ (forall g, requestedGasLimit params = Some g -> g <> 0 ->
        Overrides.gasLimit overrides = Some g)
  /\ (requestedGasLimit params = None \/ requestedGasLimit params = Some 0 ->
        Overrides.gasLimit overrides = Some (DEFAULT_GAS_LIMIT consts)).
Proof.
  intros run quote. subst quote. unfold run, trace, requestedGasLimit. clear run.
  destruct (purchaseCardWithUsdc js consts w this params) as [tr out] eqn:Hrun.
  run_all w Hrun; obs; intros Hin; cases_in Hin.
  all: injection Hin as <- <- <- <- <-.
  all: split; [reflexivity|]; split; [eexists; split; [reflexivity|eassumption]|].
  all: split; [do 2 eexists; split; [reflexivity|]; split; [eassumption|];
               split; intros Ht; rewrite Ht; reflexivity|].
  all: split; [reflexivity|]; cbn [Overrides.gasLimit].
  all: split; [ intros g Hg Hnz; rewrite Hg;
                destruct (Z.eqb_spec g 0); [contradiction | reflexivity]
              | intros [Hg|Hg]; rewrite Hg; reflexivity ].
Qed.

(** ** Worked instances *)

Lemma valid_email_shape_witness :
  isEmailValid "johnchamling@gmail.com" = true
  /\ countChar "@" "johnchamling@gmail.com" = 1%nat
  /\ (6 <= String.length "johnchamling@gmail.com")%nat
  /\ allChars emailChar "johnchamling@gmail.com" = true.
Proof.
  assert (H : isEmailValid "johnchamling@gmail.com" = true) by (vm_compute; reflexivity).
  split; [exact H | exact (valid_email_shape _ H)].
Defined.

Lemma same_date_is_same_day_witness :
  JsDate.Day Sample.noon = JsDate.Day (Sample.noon + 3600000)
  /\ areDatesOfSameDay (Some Sample.noon) (Some (Sample.noon + 3600000)) = true.
Proof.
  assert (H : JsDate.Day Sample.noon = JsDate.Day (Sample.noon + 3600000))
    by (vm_compute; reflexivity).
  split; [exact H | exact (same_date_is_same_day _ _ H)].
Defined.

Lemma constructed_service_invariant_witness :
  ZebecCardEvmService.constructor Sample.consts "0xbuyer" 11155111 Sample.apiConfig
    (Some (SdkOptions.mk (Some true))) = inr Sample.service
  /\ ZebecCardEvmService.sandbox Sample.service = true
  /\ ZebecCardAPIService.apiUrl (apiService Sample.service)
     = CARD_API_URL_Sandbox Sample.consts.
Proof.
  assert (H : ZebecCardEvmService.constructor Sample.consts "0xbuyer" 11155111
                Sample.apiConfig (Some (SdkOptions.mk (Some true)))
              = inr Sample.service) by (vm_compute; reflexivity).
  split; [exact H|].
  destruct (constructed_service_invariant _ _ _ _ _ _ H) as (H1 & _ & H3 & _).
  split; [exact H1 | exact H3].
Defined.

Lemma recipient_create_roundtrip_witness :
  Recipient.create "JohnChamling" "John" "Chamling" "johnchamling@gmail.com"
    "9876543210" "en-US" "Bharatpur" "Bagmati" "44200" "NPL"
    "Shittal street, Bharatpur - 10, Chitwan" None = inr Sample.recipient
  /\ Recipient.create "JohnChamling" "John" "Chamling" "johnchamling@gmail.com"
       "9876543210" "en-US" "Bharatpur" "Bagmati" "44200" "NPL"
       "Shittal street, Bharatpur - 10, Chitwan" (Some "N/A") = inr Sample.recipient.
Proof.
  split; [exact sample_recipient_created|].
  exact (recipient_create_roundtrip _ _ _ _ _ _ _ _ _ _ _ _ _ sample_recipient_created).
Defined.

Lemma created_recipient_passes_email_check_witness :
  Recipient.create "JohnChamling" "John" "Chamling" "johnchamling@gmail.com"
    "9876543210" "en-US" "Bharatpur" "Bagmati" "44200" "NPL"
    "Shittal street, Bharatpur - 10, Chitwan" None = inr Sample.recipient
  /\ forall w email,
       outcome (purchaseCardWithUsdc Sample.js Sample.consts w Sample.service
                  Sample.params)
       <> Throws (InvalidEmailError email).
Proof.
  split; [exact sample_recipient_created|].
  intros w email.
  exact (created_recipient_passes_email_check _ _ _ _ _ _ _ _ _ _ _ _ _
           sample_recipient_created Sample.js Sample.consts w Sample.service
           Sample.params eq_refl email).
Defined.

Lemma transaction_requires_all_checks_witness :
  let w := Sample.world (Sample.answers []) in
  let run := purchaseCardWithUsdc Sample.js Sample.consts w Sample.service
               Sample.params in
  transactions (trace run) <> []
  /\ reachesQuoteExpiryCheck Sample.js w Sample.params
  /\ w_now w <= Quote.expiresIn Sample.quote - 20000.
Proof.
  intros w run.
  assert (H : transactions (trace run) <> []) by (vm_compute; discriminate).
  split; [exact H|].
  destruct (transaction_requires_all_checks Sample.js Sample.consts w
              Sample.service Sample.params H) as (H1 & H2 & _).
  split; [exact H1 | exact H2].
Defined.

Lemma balance_check_witness :
  let w := sampleWorldWith 5000000 (inr (Some Sample.buyReceipt)) (Sample.answers []) in
  let run := purchaseCardWithUsdc Sample.js Sample.consts w Sample.service
               Sample.params in
  (In (BalanceOf (usdcToken Sample.service) (signer Sample.service)) (trace run)
   /\ 10000000 > 5000000)
  /\ outcome run = Throws (NotEnoughBalanceError "5000000" "10")
  /\ chainCalls (trace run)
     = [Decimals (usdcToken Sample.service);
        BalanceOf (usdcToken Sample.service) (signer Sample.service)].
Proof.
  intros w run.
  assert (Hin : In (BalanceOf (usdcToken Sample.service) (signer Sample.service))
                   (trace run)) by (vm_compute; pick).
  assert (Hgt : 10000000 > 5000000) by reflexivity.
  split; [split; assumption|].
  destruct (balance_check Sample.js Sample.consts w Sample.service Sample.params
              6 10000000 5000000 eq_refl eq_refl eq_refl Hin) as [H _].
  exact (H Hgt).
Defined.

Lemma daily_limit_rule_witness :
  let info := CardPurchaseInfo.mk Sample.weekBefore 4995000000 in
  let w := Sample.worldOf Sample.noon info (Sample.answers []) in
  let run := purchaseCardWithUsdc Sample.js Sample.consts w Sample.service
               Sample.params in
  (In (ReadCardPurchases (zebecCard Sample.service) (signer Sample.service))
      (trace run)
   /\ 4995000000 + 10000000 > CardConfig.dailyCardBuyLimit Sample.config)
  /\ outcome run
     = Throws (DailyCardPurchaseLimitExceedError "5000000000" "4995000000").
Proof.
  intros info w run.
  assert (Hin : In (ReadCardPurchases (zebecCard Sample.service)
                      (signer Sample.service)) (trace run)) by (vm_compute; pick).
  assert (Hgt : 4995000000 + 10000000 > CardConfig.dailyCardBuyLimit Sample.config)
    by reflexivity.
  split; [split; assumption|].
  destruct (daily_limit_rule Sample.js Sample.consts w Sample.service Sample.params
              6 10000000 Sample.config info eq_refl eq_refl eq_refl eq_refl Hin)
    as [H _].
  exact (H Hgt).
Defined.

Lemma missing_buy_receipt_witness :
  let w := sampleWorldWith 1000000000 (inr None) (Sample.answers []) in
  let run := purchaseCardWithUsdc Sample.js Sample.consts w Sample.service
               Sample.params in
  In BuyWait (trace run)
  /\ outcome run = Throws (PlainError "Could not get tx receipt for tx: 0xbuy")
  /\ submissions (trace run) = [].
Proof.
  intros w run.
  assert (Hin : In BuyWait (trace run)) by (vm_compute; pick).
  split; [exact Hin|].
  destruct (missing_buy_receipt Sample.js Sample.consts w Sample.service
              Sample.params (TransactionResponse.mk "0xbuy") eq_refl eq_refl Hin)
    as [H _].
  split; [exact H | vm_compute; reflexivity].
Defined.

Lemma submitted_payload_witness :
  let w := Sample.world (Sample.answers []) in
  let run := purchaseCardWithUsdc Sample.js Sample.consts w Sample.service
               Sample.params in
  In (PurchaseCard samplePayload) (trace run)
  /\ exists buyCardReceipt buyer,
      w_buyWait w = inr (Some buyCardReceipt)
      /\ w_getAddress w = inr buyer
      /\ Deposit.txHash (Receipt.deposit (OrderCardRequest.receipt samplePayload))
         = TransactionReceipt.hash buyCardReceipt
      /\ Deposit.buyerAddress (Receipt.deposit (OrderCardRequest.receipt samplePayload))
         = buyer.
Proof.
  intros w run.
  assert (Hin : In (PurchaseCard samplePayload) (trace run)) by (vm_compute; pick).
  split; [exact Hin|].
  destruct (submitted_payload Sample.js Sample.consts w Sample.service
              Sample.params samplePayload Hin) as (rc & buyer & H1 & H2 & H3).
  exists rc, buyer. rewrite H3. repeat split; assumption.
Defined.

Lemma retry_law_witness :
  let w := Sample.world (Sample.answers [inl "e1"; inl "e2"; inl "e3"; inr "order-9"]) in
  let run := purchaseCardWithUsdc Sample.js Sample.consts w Sample.service
               Sample.params in
  (submissions (trace run) <> []
   /\ (forall i, (i < 3)%nat -> exists e, w_purchaseCard w i = inl e)
   /\ w_purchaseCard w 3%nat = inr "order-9")
  /\ exists payload buyCardReceipt,
      w_buyWait w = inr (Some buyCardReceipt)
      /\ fromFirst isReporting (trace run)
         = [PurchaseCard payload; Sleep 1000; PurchaseCard payload; Sleep 2000;
            PurchaseCard payload; Sleep 4000; PurchaseCard payload]
      /\ outcome run = Returns {| PurchaseResult.receipt := buyCardReceipt;
                                  PurchaseResult.orderDetail := "order-9" |}.
Proof.
  intros w run.
  assert (Hsub : submissions (trace run) <> []) by (vm_compute; discriminate).
  assert (Hfail : forall i, (i < 3)%nat -> exists e, w_purchaseCard w i = inl e).
  { intros i Hi. destruct i as [|[|[|i]]]; try lia; eexists; reflexivity. }
  split; [repeat split; [exact Hsub | exact Hfail]|].
  assert (Hn : (3 < 5)%nat) by lia.
  exact (retry_law Sample.js Sample.consts w Sample.service Sample.params 3
           "order-9" Hsub Hn Hfail eq_refl).
Defined.

Lemma return_means_acknowledged_witness :
  let w := Sample.world (Sample.answers [inl "e1"; inr "order-2"]) in
  let run := purchaseCardWithUsdc Sample.js Sample.consts w Sample.service
               Sample.params in
  let r := {| PurchaseResult.receipt := Sample.buyReceipt;
              PurchaseResult.orderDetail := "order-2" |} in
  outcome run = Returns r
  /\ exists n buyCardReceipt payload,
      (n < 5)%nat
      /\ (forall i, (i < n)%nat -> exists e, w_purchaseCard w i = inl e)
      /\ w_purchaseCard w n = inr "order-2"
      /\ w_buyWait w = inr (Some buyCardReceipt)
      /\ Sample.buyReceipt = buyCardReceipt
      /\ fromFirst isReporting (trace run)
         = (backoff payload n ++ [PurchaseCard payload])%list
      /\ List.length (filter isBuy (trace run)) = 1%nat.
Proof.
  intros w run r.
  assert (H : outcome run = Returns r) by (vm_compute; reflexivity).
  split; [exact H|].
  exact (return_means_acknowledged Sample.js Sample.consts w Sample.service
           Sample.params r H).
Defined.

Lemma buy_call_arguments_witness :
  let w := Sample.world (Sample.answers []) in
  let run := purchaseCardWithUsdc Sample.js Sample.consts w Sample.service
               Sample.params in
  let given := Overrides.mk (Some 3000000) "" in
  In (BuyCardDirect (zebecCard Sample.service) 10000000 "non_reloadable"
        "sha256:johnchamling@gmail.com" given) (trace run)
  /\ requestedGasLimit Sample.params = None
  /\ Overrides.gasLimit given = Some (DEFAULT_GAS_LIMIT Sample.consts).
Proof.
  intros w run given.
  assert (Hin : In (BuyCardDirect (zebecCard Sample.service) 10000000
                      "non_reloadable" "sha256:johnchamling@gmail.com" given)
                   (trace run)) by (vm_compute; pick).
  split; [exact Hin|]. split; [reflexivity|].
  destruct (buy_call_arguments Sample.js Sample.consts w Sample.service
              Sample.params _ _ _ _ _ Hin) as (_ & _ & _ & _ & _ & H).
  apply H. left. reflexivity.
Defined.
